(** * PlagiarismDetector: a shallow embedding of plagiarism-detector.js

    The detector is a pure function of its arguments.  JavaScript numbers are
    modelled by exact rationals ([Q]), JavaScript strings by [string] (a
    sequence of 8-bit code units, read as the Latin-1 range of UTF-16),
    arrays by [list], and fields that may be [null] or [undefined] by
    [option]. *)

From Stdlib Require Import Bool Arith ZArith QArith Qround Lia Lqa.
From Stdlib Require Import List Ascii String Permutation Sorted.
Import ListNotations.

#[local] Set Warnings "-register-all".

Local Open Scope nat_scope.

(** ** JavaScript strings *)

Module JsString.

Definition chars (s : string) : list ascii := list_ascii_of_string s.
Definition ofChars (l : list ascii) : string := string_of_list_ascii l.

(** [str.length] *)
Definition length (s : string) : nat := List.length (chars s).

(** White space as matched by [\s] and removed by [trim()]:
    TAB, LF, VT, FF, CR, SPACE and NBSP. *)
Definition isSpace (c : ascii) : bool :=
  let n := nat_of_ascii c in
  ((9 <=? n) && (n <=? 13)) || (n =? 32) || (n =? 160).

(** [toLowerCase()] on one code unit: A-Z and the Latin-1 capitals. *)
Definition lowerChar (c : ascii) : ascii :=
  let n := nat_of_ascii c in
  if ((65 <=? n) && (n <=? 90))
     || ((192 <=? n) && (n <=? 222) && negb (n =? 215))
  then ascii_of_nat (n + 32) else c.

Definition toLowerCase (s : string) : string :=
  ofChars (map lowerChar (chars s)).

Fixpoint dropSpaces (l : list ascii) : list ascii :=
  match l with
  | [] => []
  | c :: l' => if isSpace c then dropSpaces l' else l
  end.

(** [trim()] *)
Definition trim (s : string) : string :=
  ofChars (rev (dropSpaces (rev (dropSpaces (chars s))))).

(** The loop of [split(/\s+/)]: [cur] is the token being read, [inws] says
    that the previous code unit belonged to a separator.  A separator ends
    the current token (which is empty only at the very start); the token
    that is open at the end of the input is always emitted, so the result
    is never the empty array. *)
Fixpoint splitLoop (inws : bool) (cur : list ascii) (l : list ascii)
  : list string :=
  match l with
  | [] => [ofChars cur]
  | c :: l' =>
      if isSpace c
      then if inws then splitLoop true [] l'
           else ofChars cur :: splitLoop true [] l'
      else splitLoop false (cur ++ [c]) l'
  end.

(** [str.split(/\s+/)] *)
Definition splitWhitespace (s : string) : list string :=
  splitLoop false [] (chars s).

End JsString.

(** ** JavaScript [Set] of strings: distinct elements in insertion order *)

Module JsSet.

Definition has (s : list string) (x : string) : bool :=
  existsb (String.eqb x) s.

Definition add (s : list string) (x : string) : list string :=
  if has s x then s else s ++ [x].

(** [new Set(iterable)] *)
Definition ofList (l : list string) : list string :=
  fold_left add l [].

Definition size (s : list string) : nat := List.length s.

End JsSet.

(** ** Levenshtein distance: the dynamic-programming table of the source *)

(** [dp[0][j] = j] *)
Definition firstRow (n : nat) : list nat := seq 0 (S n).

(** The inner loop over [j]: [c] is [str1[i-1]], [left] is [dp[i][j-1]],
    [prev] is [dp[i-1][j-1 ..]] and [t] is [str2[j-1 ..]]. *)
Fixpoint fillRow (c : ascii) (left : nat) (prev : list nat) (t : list ascii)
  : list nat :=
  match t, prev with
  | b :: t', diag :: ((up :: _) as prev') =>
      let v := if Ascii.eqb c b then diag
               else Nat.min (up + 1) (Nat.min (left + 1) (diag + 1)) in
      v :: fillRow c v prev' t'
  | _, _ => []
  end.

(** Row [i]: [dp[i][0] = i], then the inner loop. *)
Definition nextRow (i : nat) (c : ascii) (prev : list nat) (t : list ascii)
  : list nat :=
  i :: fillRow c i prev t.

(** The outer loop over [i], from row [i] on, given row [i-1]. *)
Fixpoint fillTable (i : nat) (s : list ascii) (prev : list nat)
  (t : list ascii) : list (list nat) :=
  match s with
  | [] => []
  | c :: s' =>
      let row := nextRow i c prev t in
      row :: fillTable (S i) s' row t
  end.

Definition dpTable (s t : list ascii) : list (list nat) :=
  firstRow (List.length t) :: fillTable 1 s (firstRow (List.length t)) t.

(** [levenshteinDistance(str1, str2)]: the entry [dp[m][n]]. *)
Definition levenshteinDistance (str1 str2 : string) : nat :=
  let s := JsString.chars str1 in
  let t := JsString.chars str2 in
  nth (List.length t) (nth (List.length s) (dpTable s t) []) 0.

(** The recurrence the table implements, on reversed prefixes. *)
Fixpoint editDist (p q : list ascii) : nat :=
  match p with
  | [] => List.length q
  | a :: p' =>
      (fix inner (q : list ascii) : nat :=
         match q with
         | [] => S (List.length p')
         | b :: q' =>
             if Ascii.eqb a b then editDist p' q'
             else Nat.min (editDist p' q + 1)
                          (Nat.min (inner q' + 1) (editDist p' q' + 1))
         end) q
  end.

(** Row of the table for the reversed prefix [rp] of [str1]: its entries from
    column [length rq] on, [rq] being the reversed prefix of [str2] read. *)
Fixpoint specRow (rp rq : list ascii) (t : list ascii) : list nat :=
  editDist rp rq ::
  match t with
  | [] => []
  | b :: t' => specRow rp (b :: rq) t'
  end.

(** Edit scripts: [Edits s t n] says that [n] insertions, deletions and
    substitutions of one character turn [s] into [t]; the script follows
    the two strings from left to right. *)
Inductive Edits : list ascii -> list ascii -> nat -> Prop :=
| EditsDone : Edits [] [] 0
| EditsKeep (c : ascii) (s t : list ascii) (n : nat) :
    Edits s t n -> Edits (s ++ [c]) (t ++ [c]) n
| EditsSubstitute (a b : ascii) (s t : list ascii) (n : nat) :
    Edits s t n -> Edits (s ++ [a]) (t ++ [b]) (S n)
| EditsDelete (a : ascii) (s t : list ascii) (n : nat) :
    Edits s t n -> Edits (s ++ [a]) t (S n)
| EditsInsert (b : ascii) (s t : list ascii) (n : nat) :
    Edits s t n -> Edits s (t ++ [b]) (S n).

(** ** JavaScript numbers, as exact rationals *)

Local Open Scope Q_scope.

Definition ofNat (n : nat) : Q := inject_Z (Z.of_nat n).

(** [x < y] and [x >= y] as tests. *)
Definition Qlt_bool (x y : Q) : bool := negb (Qle_bool y x).
Definition Qge_bool (x y : Q) : bool := Qle_bool y x.

(** [Math.max(x, y)], [Math.min(x, y)], [Math.abs(x)]. *)
Definition mathMax (x y : Q) : Q := if Qle_bool x y then y else x.
Definition mathMin (x y : Q) : Q := if Qle_bool x y then x else y.
Definition mathAbs (x : Q) : Q := if Qle_bool 0 x then x else - x.

(** [Math.round(x)]: the integer nearest to [x], halves going up. *)
Definition mathRound (x : Q) : Z := Qfloor (x + (1 # 2)).

(** [numbers.reduce((a, b) => a + b, 0)] *)
Definition sum (numbers : list Q) : Q := fold_left Qplus numbers 0.

(** [Math.sqrt(v) < x], for [v >= 0], decided without extracting the root:
    the root of [v] is below [x] exactly when [x] is positive and
    [v < x * x]. *)
Definition sqrtLt (v x : Q) : bool := Qlt_bool 0 x && Qlt_bool v (x * x).

Definition calculateVariance (numbers : list Q) : Q :=
  if (List.length numbers =? 0)%nat then 0
  else
    let avg := sum numbers / ofNat (List.length numbers) in
    fold_left (fun sum num => sum + (num - avg) * (num - avg)) numbers 0
    / ofNat (List.length numbers).

(** ** Answers *)

(** An answer is a JSON value; [undefined] is identified with [null], which
    is what [normalizeAnswer] does with it. *)
Inductive Answer : Type :=
| ANull
| ABool (b : bool)
| ANum (x : Q)
| AStr (s : string)
| AArr (items : list Answer)
| AObj (fields : list (string * Answer)).

(** [JSON.stringify(a) === JSON.stringify(b)]: the serialization is
    injective on JSON values (keys in insertion order), so the two strings
    are equal exactly when the values have the same shape and leaves. *)
Fixpoint sameJson (a b : Answer) : bool :=
  match a, b with
  | ANull, ANull => true
  | ABool x, ABool y => Bool.eqb x y
  | ANum x, ANum y => Qeq_bool x y
  | AStr x, AStr y => String.eqb x y
  | AArr xs, AArr ys =>
      (fix items (xs ys : list Answer) : bool :=
         match xs, ys with
         | [], [] => true
         | x :: xs', y :: ys' => sameJson x y && items xs' ys'
         | _, _ => false
         end) xs ys
  | AObj xs, AObj ys =>
      (fix fields (xs ys : list (string * Answer)) : bool :=
         match xs, ys with
         | [], [] => true
         | (k, x) :: xs', (k', y) :: ys' =>
             String.eqb k k' && sameJson x y && fields xs' ys'
         | _, _ => false
         end) xs ys
  | _, _ => false
  end.

(** Truthiness of a value, as tested by [a1 && a2] and [if (answer1 && ...)]. *)
Definition truthy (a : Answer) : bool :=
  match a with
  | ANull => false
  | ABool b => b
  | ANum x => negb (Qeq_bool x 0)
  | AStr s => negb (String.eqb s EmptyString)
  | AArr _ | AObj _ => true
  end.

Definition normalizeAnswer (answer : Answer) : Answer :=
  match answer with
  | AStr s => AStr (JsString.trim (JsString.toLowerCase s))
  | _ => answer
  end.

(** ** Text similarity *)

Definition jaccardSimilarity (str1 str2 : string) : Q :=
  let set1 :=
    JsSet.ofList (JsString.splitWhitespace (JsString.toLowerCase str1)) in
  let set2 :=
    JsSet.ofList (JsString.splitWhitespace (JsString.toLowerCase str2)) in
  let intersection := JsSet.ofList (filter (JsSet.has set2) set1) in
  let union := JsSet.ofList (set1 ++ set2) in
  if (JsSet.size union =? 0)%nat then 0
  else ofNat (JsSet.size intersection) / ofNat (JsSet.size union).

Definition levenshteinSimilarity (str1 str2 : string) : Q :=
  let distance := levenshteinDistance str1 str2 in
  let maxLength := Nat.max (JsString.length str1) (JsString.length str2) in
  if (maxLength =? 0)%nat then 1
  else 1 - ofNat distance / ofNat maxLength.

(** ** Answer similarity *)

(** The score one comparable position adds to [totalSimilarity]. *)
Definition positionScore (answer1 answer2 : Answer) : Q :=
  match answer1, answer2 with
  | AStr s1, AStr s2 =>
      if (20 <? JsString.length s1)%nat || (20 <? JsString.length s2)%nat
      then (jaccardSimilarity s1 s2 + levenshteinSimilarity s1 s2) / 2
      else if String.eqb s1 s2 then 1 else 0
  | _, _ => if sameJson answer1 answer2 then 1 else 0
  end.

(** One turn of the loop: the state is
    [(totalSimilarity, comparableAnswers)]. *)
Definition similarityStep (acc : Q * nat) (p : Answer * Answer) : Q * nat :=
  let answer1 := normalizeAnswer (fst p) in
  let answer2 := normalizeAnswer (snd p) in
  if truthy answer1 && truthy answer2
  then (fst acc + positionScore answer1 answer2, S (snd acc))
  else acc.

Definition calculateAnswerSimilarity (answers1 answers2 : option (list Answer))
  : Q :=
  match answers1, answers2 with
  | Some a1, Some a2 =>
      if negb (List.length a1 =? List.length a2)%nat then 0
      else
        let '(totalSimilarity, comparableAnswers) :=
          fold_left similarityStep (combine a1 a2) (0, 0%nat) in
        if (0 <? comparableAnswers)%nat
        then totalSimilarity / ofNat comparableAnswers
        else 0
  | _, _ => 0
  end.

(** [answers[i]], [undefined] (read as [null]) past the end. *)
Definition at_ (answers : list Answer) (i : nat) : Answer :=
  nth i answers ANull.

Definition getMatchingAnswers (answers1 answers2 : list Answer) : list nat :=
  filter
    (fun i =>
       let a1 := normalizeAnswer (at_ answers1 i) in
       let a2 := normalizeAnswer (at_ answers2 i) in
       truthy a1 && truthy a2 && sameJson a1 a2)
    (seq 0 (List.length answers1)).

(** ** Submissions *)

Record PausePatterns : Type := {
  longPauses : Q;
  avgPause : Q
}.

Record TypingData : Type := {
  questionTypingSpeeds : option (list Q);
  pausePatterns : option PausePatterns;
  answerChanges : option (list Q);
  totalTime : Q;
  totalQuestions : Q
}.

(** A [timestamp] field: missing ([undefined]), [null], or a date string as
    the server writes it ([toISOString()]), given by the instant it denotes
    in milliseconds ([new Date(timestamp).getTime()]). *)
Inductive Timestamp : Type :=
| NoTimestamp
| NullTimestamp
| At (ms : Z).

Record Submission : Type := {
  participantId : string;
  participantName : string;
  answers : option (list Answer);
  completionTime : option Q;
  timestamp : Timestamp;
  typingData : option TypingData;
  questionTimes : option (list Q)
}.

Record SuspiciousMatch : Type := {
  matchId : string;
  matchName : string;
  similarityScore : Z;
  matchingAnswers : list nat
}.

Definition similarityThreshold : Q := 85 # 100.
Definition typingSpeedMin : Q := 10.
Definition typingSpeedMax : Q := 500.
Definition suspiciousTimeThreshold : Q := 2.

(** The answer array of a submission, read where both arrays are known to be
    present: [getMatchingAnswers] runs only on a pair whose similarity
    reaches the threshold. *)
Definition answersOr (answers : option (list Answer)) : list Answer :=
  match answers with Some a => a | None => [] end.

(** One turn of the loop over [allSubmissions]: the state is
    [(suspicious, maxScore)]. *)
Definition similarityVisit (submission : Submission)
  (acc : list SuspiciousMatch * Q) (other : Submission)
  : list SuspiciousMatch * Q :=
  if String.eqb (participantId other) (participantId submission)
     || match answers other with None => true | Some _ => false end
  then acc
  else
    let similarity :=
      calculateAnswerSimilarity (answers submission) (answers other) in
    if Qge_bool similarity similarityThreshold
    then (fst acc ++
            [{| matchId := participantId other;
                matchName := participantName other;
                similarityScore := mathRound (similarity * 100);
                matchingAnswers :=
                  getMatchingAnswers (answersOr (answers submission))
                                     (answersOr (answers other)) |}],
          mathMax (snd acc) (similarity * 100))
    else acc.

(** Returns [(suspicious, maxScore)]. *)
Definition detectAnswerSimilarity (submission : Submission)
  (allSubmissions : list Submission) : list SuspiciousMatch * Q :=
  fold_left (similarityVisit submission) allSubmissions ([], 0).

(** ** Anomaly analyzers *)

(** The [issue] of a flag raised by the typing and time analyzers (the
    [value] and [expected] texts that go with it are display strings). *)
Inductive Issue : Type :=
| ExtremelySlowTyping
| UnrealisticallyFastTyping
| SuspiciouslyConsistentTyping
| VeryFewThinkingPauses
| UnusuallyLongPauses
| NoAnswerRevisions
| ExcessiveAnswerRevisions
| SuspiciouslyFastCompletion
| FasterThanPeers
| UnusuallySlowCompletion
| UnnaturallyConsistentTiming
| TooManyInstantAnswers
| MultipleSubmissionsWithin5Seconds.

(** The state of an analyzer: [(flags, anomalyScore)]. *)
Definition Anomalies : Type := (list Issue * Q)%type.

(** [if (cond) { flags.push({issue, ...}); anomalyScore += points; }] *)
Definition flagIf (cond : bool) (issue : Issue) (points : Q) (st : Anomalies)
  : Anomalies :=
  if cond then (fst st ++ [issue], snd st + points) else st.

(** [return { flags, anomalyScore: Math.min(anomalyScore, 100) }] *)
Definition finish (st : Anomalies) : Anomalies :=
  (fst st, mathMin (snd st) 100).

Definition checkTypingSpeed (typingData : TypingData) (st : Anomalies)
  : Anomalies :=
  let speeds :=
    match questionTypingSpeeds typingData with Some l => l | None => [] end in
  if (0 <? List.length speeds)%nat then
    let avgSpeed := sum speeds / ofNat (List.length speeds) in
    let variance := calculateVariance speeds in
    let st :=
      if Qlt_bool avgSpeed typingSpeedMin
      then flagIf true ExtremelySlowTyping 30 st
      else flagIf (Qlt_bool typingSpeedMax avgSpeed)
                  UnrealisticallyFastTyping 40 st in
    flagIf (sqrtLt variance (avgSpeed * (1 # 10)) && Qlt_bool 100 avgSpeed)
           SuspiciouslyConsistentTyping 35 st
  else st.

Definition checkPausePatterns (typingData : TypingData) (st : Anomalies)
  : Anomalies :=
  match pausePatterns typingData with
  | Some p =>
      let st :=
        flagIf (Qlt_bool (longPauses p) 2 && Qlt_bool 60 (totalTime typingData))
               VeryFewThinkingPauses 25 st in
      flagIf (Qlt_bool 30 (avgPause p)) UnusuallyLongPauses 20 st
  | None => st
  end.

Definition checkAnswerChanges (typingData : TypingData) (st : Anomalies)
  : Anomalies :=
  match answerChanges typingData with
  | Some changes =>
      let totalChanges := sum changes in
      let st :=
        flagIf (Qeq_bool totalChanges 0 && Qlt_bool 30 (totalTime typingData))
               NoAnswerRevisions 30 st in
      flagIf (Qlt_bool (totalQuestions typingData * 5) totalChanges)
             ExcessiveAnswerRevisions 15 st
  | None => st
  end.

Definition analyzeTypingPattern (typingData : TypingData) : Anomalies :=
  finish
    (checkAnswerChanges typingData
       (checkPausePatterns typingData
          (checkTypingSpeed typingData ([], 0)))).

(** [x || 0] on a number that may be absent. *)
Definition orZero (x : option Q) : Q :=
  match x with Some q => q | None => 0 end.

(** Truthiness of a number that may be absent. *)
Definition present (x : option Q) : bool :=
  match x with Some q => negb (Qeq_bool q 0) | None => false end.

Definition completedSubmissions (submission : Submission)
  (allSubmissions : list Submission) : list Submission :=
  filter
    (fun s => present (completionTime s)
              && negb (String.eqb (participantId s) (participantId submission)))
    allSubmissions.

Definition checkCompletionTime (submission : Submission) (questionCount : nat)
  (st : Anomalies) : Anomalies :=
  flagIf (Qlt_bool (orZero (completionTime submission))
                   (suspiciousTimeThreshold * ofNat questionCount))
         SuspiciouslyFastCompletion 40 st.

(** [Math.abs(completionTime - avgTime) > 2 * stdDev] is tested as
    [Math.sqrt(variance) < Math.abs(completionTime - avgTime) / 2]. *)
Definition checkPeers (submission : Submission) (completed : list Submission)
  (st : Anomalies) : Anomalies :=
  if (3 <=? List.length completed)%nat then
    let times := map (fun s => orZero (completionTime s)) completed in
    let completionTime := orZero (completionTime submission) in
    let avgTime := sum times / ofNat (List.length completed) in
    let variance := calculateVariance times in
    if sqrtLt variance (mathAbs (completionTime - avgTime) / 2)
    then if Qlt_bool completionTime avgTime
         then flagIf true FasterThanPeers 30 st
         else flagIf true UnusuallySlowCompletion 15 st
    else st
  else st.

Definition checkQuestionTimes (submission : Submission) (st : Anomalies)
  : Anomalies :=
  match questionTimes submission with
  | Some times =>
      if (0 <? List.length times)%nat then
        let variance := calculateVariance times in
        let avgQuestionTime := sum times / ofNat (List.length times) in
        let st :=
          flagIf (Qlt_bool variance (avgQuestionTime * (1 # 10))
                  && (5 <? List.length times)%nat)
                 UnnaturallyConsistentTiming 25 st in
        let instantAnswers :=
          List.length (filter (fun t => Qlt_bool t 1) times) in
        flagIf (Qlt_bool (ofNat (List.length times) * (3 # 10))
                         (ofNat instantAnswers))
               TooManyInstantAnswers 35 st
      else st
  | None => st
  end.

Definition checkNearby (submission : Submission) (completed : list Submission)
  (st : Anomalies) : Anomalies :=
  match timestamp submission with
  | At submissionTime =>
      if (0 <? List.length completed)%nat then
        let nearbySubs :=
          filter
            (fun s =>
               match timestamp s with
               | At otherTime =>
                   (Z.abs (submissionTime - otherTime) <? 5000)%Z
               | NullTimestamp => (Z.abs (submissionTime - 0) <? 5000)%Z
               | NoTimestamp => false
               end)
            completed in
        flagIf (2 <=? List.length nearbySubs)%nat
               MultipleSubmissionsWithin5Seconds 20 st
      else st
  | NullTimestamp | NoTimestamp => st
  end.

Section Questions.

(** The quiz questions; only their number is used. *)
Variable Question : Type.

Definition detectTimeAnomalies (submission : Submission)
  (allSubmissions : list Submission) (questions : list Question)
  : Anomalies :=
  let completed := completedSubmissions submission allSubmissions in
  finish
    (checkNearby submission completed
       (checkQuestionTimes submission
          (checkPeers submission completed
             (checkCompletionTime submission (List.length questions)
                ([], 0))))).

End Questions.

(** ** Risk aggregator *)

Inductive FlagType : Type := ANSWER_SIMILARITY | TYPING_PATTERN | TIME_ANOMALY.

Inductive Severity : Type := INFO | LOW | MEDIUM | HIGH.

Inductive Details : Type :=
| Matches (suspicious : list SuspiciousMatch)
| Issues (issues : list Issue).

(** A flag, without its [description] text. *)
Record Flag : Type := {
  flagType : FlagType;
  severity : Severity;
  details : Details
}.

Record Scores : Type := {
  answerSimilarity : Q;
  typingPattern : Q;
  timeAnomaly : Q;
  overall : Z
}.

(** The analysis result, without the [timestamp] read from the clock. *)
Record AnalysisResult : Type := {
  resultId : string;
  resultName : string;
  isSuspicious : bool;
  suspicionScore : Z;
  scores : Scores;
  flags : list Flag
}.

Definition getSeverity (score : Q) : Severity :=
  if Qge_bool score 80 then HIGH
  else if Qge_bool score 60 then MEDIUM
  else if Qge_bool score 40 then LOW
  else INFO.

(** [if (cond) flags.push(flag)] *)
Definition pushIf (cond : bool) (flag : Flag) (flags : list Flag) : list Flag :=
  if cond then flags ++ [flag] else flags.

(** [scores.answerSimilarity * 0.5 + scores.typingPattern * 0.3
     + scores.timeAnomaly * 0.2] *)
Definition weighted (answerSimilarity typingPattern timeAnomaly : Q) : Q :=
  answerSimilarity * (5 # 10) + typingPattern * (3 # 10)
  + timeAnomaly * (2 # 10).

Section Analysis.

Variable Question : Type.

Definition analyzeSubmission (submission : Submission)
  (allSubmissions : list Submission) (questions : list Question)
  : AnalysisResult :=
  (* 1. Answer similarity *)
  let similarityAnalysis := detectAnswerSimilarity submission allSubmissions in
  let answerSimilarity := snd similarityAnalysis in
  let flags :=
    pushIf (0 <? List.length (fst similarityAnalysis))%nat
           {| flagType := ANSWER_SIMILARITY;
              severity := getSeverity (snd similarityAnalysis);
              details := Matches (fst similarityAnalysis) |}
           [] in
  (* 2. Typing pattern *)
  let '(typingPattern, flags) :=
    match typingData submission with
    | Some data =>
        let typingAnalysis := analyzeTypingPattern data in
        (snd typingAnalysis,
         pushIf (0 <? List.length (fst typingAnalysis))%nat
                {| flagType := TYPING_PATTERN;
                   severity := getSeverity (snd typingAnalysis);
                   details := Issues (fst typingAnalysis) |}
                flags)
    | None => (0, flags)
    end in
  (* 3. Time anomalies *)
  let timeAnalysis :=
    detectTimeAnomalies Question submission allSubmissions questions in
  let timeAnomaly := snd timeAnalysis in
  let flags :=
    pushIf (0 <? List.length (fst timeAnalysis))%nat
           {| flagType := TIME_ANOMALY;
              severity := getSeverity (snd timeAnalysis);
              details := Issues (fst timeAnalysis) |}
           flags in
  let overall :=
    mathRound (weighted answerSimilarity typingPattern timeAnomaly) in
  {| resultId := participantId submission;
     resultName := participantName submission;
     isSuspicious := (60 <=? overall)%Z;
     suspicionScore := overall;
     scores := {| answerSimilarity := answerSimilarity;
                  typingPattern := typingPattern;
                  timeAnomaly := timeAnomaly;
                  overall := overall |};
     flags := flags |}.

End Analysis.

(** ** Batch reporter *)

(** [Array.prototype.sort(compare)]: a stable sort; the element [x] goes in
    front of the first [y] that [compare(x, y) <= 0] allows it to precede. *)
Fixpoint insertBy {A : Type} (compare : A -> A -> Z) (x : A) (l : list A)
  : list A :=
  match l with
  | [] => [x]
  | y :: l' =>
      if (compare x y <=? 0)%Z then x :: l else y :: insertBy compare x l'
  end.

Definition sortBy {A : Type} (compare : A -> A -> Z) (l : list A) : list A :=
  fold_right (insertBy compare) [] l.

(** [(a, b) => b.suspicionScore - a.suspicionScore] *)
Definition byScoreDescending (a b : AnalysisResult) : Z :=
  (suspicionScore b - suspicionScore a)%Z.

(** The batch report, without the [generatedAt] read from the clock. *)
Record BatchReport : Type := {
  totalSubmissions : nat;
  flaggedSubmissions : nat;
  reports : list AnalysisResult
}.

Section Batch.

Variable Question : Type.

Definition generateBatchReport (allSubmissions : list Submission)
  (questions : list Question) : BatchReport :=
  let reports :=
    map (fun submission =>
           analyzeSubmission Question submission allSubmissions questions)
        allSubmissions in
  let reports := sortBy byScoreDescending reports in
  {| totalSubmissions := List.length allSubmissions;
     flaggedSubmissions := List.length (filter isSuspicious reports);
     reports := reports |}.

End Batch.

Arguments detectTimeAnomalies {Question}.
Arguments analyzeSubmission {Question}.
Arguments generateBatchReport {Question}.

(** ** Vocabulary of the statements *)

(** [other] is compared with [submission]: it is not skipped by the loop of
    [detectAnswerSimilarity]. *)
Definition compared (submission other : Submission) : bool :=
  negb (String.eqb (participantId other) (participantId submission))
  && match answers other with Some _ => true | None => false end.

(** The per-pair similarity of [submission] and [other]. *)
Definition similarityTo (submission other : Submission) : Q :=
  calculateAnswerSimilarity (answers submission) (answers other).

(** [other] is compared with [submission] and reaches the threshold. *)
Definition suspiciousOf (submission other : Submission) : bool :=
  compared submission other
  && Qge_bool (similarityTo submission other) similarityThreshold.

(** What [other] contributes to [maxScore] when it is suspicious. *)
Definition pairScore (submission other : Submission) : Q :=
  similarityTo submission other * 100.

(** The entry of the suspicious list that [other] gives rise to. *)
Definition matchOf (submission other : Submission) : SuspiciousMatch :=
  {| matchId := participantId other;
     matchName := participantName other;
     similarityScore := mathRound (similarityTo submission other * 100);
     matchingAnswers :=
       getMatchingAnswers (answersOr (answers submission))
                          (answersOr (answers other)) |}.

(** The answer sequences of the two submissions have the same length. *)
Definition sameLength (submission other : Submission) : bool :=
  (List.length (answersOr (answers submission))
   =? List.length (answersOr (answers other)))%nat.

(** The maximum in the words of the specification: over every other
    submission with a different participantId, non-null answers and an
    answer sequence of equal length, of the per-pair similarity times 100
    (0 when there is none). *)
Definition pairwiseMaximum (submission : Submission)
  (allSubmissions : list Submission) : Q :=
  fold_left mathMax
    (map (fun other => similarityTo submission other * 100)
         (filter (fun other => compared submission other
                               && sameLength submission other)
                 allSubmissions))
    0.

(** The score of the category a flag belongs to. *)
Definition categoryScore (s : Scores) (t : FlagType) : Q :=
  match t with
  | ANSWER_SIMILARITY => answerSimilarity s
  | TYPING_PATTERN => typingPattern s
  | TIME_ANOMALY => timeAnomaly s
  end.

(** A string that is empty once lower-cased and trimmed. *)
Definition blank (s : string) : bool :=
  String.eqb (JsString.trim (JsString.toLowerCase s)) EmptyString.

(** The analyzer state [st'] extends [st]: nothing is retracted. *)
Definition grows (st st' : Anomalies) : Prop :=
  snd st <= snd st' /\ incl (fst st) (fst st').

(** [submission] with its [completionTime] replaced. *)
Definition withCompletionTime (submission : Submission) (time : option Q)
  : Submission :=
  {| participantId := participantId submission;
     participantName := participantName submission;
     answers := answers submission;
     completionTime := time;
     timestamp := timestamp submission;
     typingData := typingData submission;
     questionTimes := questionTimes submission |}.


(** [r1] may precede [r2] in a report sorted by descending suspicionScore. *)
Definition descending (r1 r2 : AnalysisResult) : Prop :=
  (suspicionScore r2 <= suspicionScore r1)%Z.

(** The reports whose suspicionScore is [k], in the order of [l]. *)
Definition withScore (k : Z) (l : list AnalysisResult) : list AnalysisResult :=
  filter (fun r => (suspicionScore r =? k)%Z) l.

(** ** Sample inputs *)

Module Examples.

Local Open Scope string_scope.

Definition submissionOf (id : string) (given : option (list Answer))
  (time : option Q) : Submission :=
  {| participantId := id;
     participantName := id;
     answers := given;
     completionTime := time;
     timestamp := NoTimestamp;
     typingData := None;
     questionTimes := None |}.

(** Two participants who agree on one answer out of two. *)
Definition halfA : Submission :=
  submissionOf "a" (Some [AStr "x"; AStr "y"]) (Some 100).
Definition halfB : Submission :=
  submissionOf "b" (Some [AStr "x"; AStr "z"]) (Some 100).

(** A submission whose completion time was not recorded. *)
Definition untimed : Submission := submissionOf "a" None None.

(** Two participants who both left the only question blank. *)
Definition blankA : Submission :=
  submissionOf "a" (Some [AStr EmptyString]) (Some 100).
Definition blankB : Submission :=
  submissionOf "b" (Some [AStr EmptyString]) (Some 100).

(** Two participants with the same short answers. *)
Definition parisA : Submission :=
  submissionOf "a" (Some (map AStr ["paris"; "4"])) (Some 100).
Definition parisB : Submission :=
  submissionOf "b" (Some (map AStr ["paris"; "4"])) (Some 100).


(** A one-question quiz. *)
Definition oneQuestion : list unit := [tt].

End Examples.

(** ** Vocabulary of the further properties *)

(** The points an issue adds to the anomaly score of its analyzer. *)
Definition points (issue : Issue) : Q :=
  match issue with
  | ExtremelySlowTyping => 30
  | UnrealisticallyFastTyping => 40
  | SuspiciouslyConsistentTyping => 35
  | VeryFewThinkingPauses => 25
  | UnusuallyLongPauses => 20
  | NoAnswerRevisions => 30
  | ExcessiveAnswerRevisions => 15
  | SuspiciouslyFastCompletion => 40
  | FasterThanPeers => 30
  | UnusuallySlowCompletion => 15
  | UnnaturallyConsistentTiming => 25
  | TooManyInstantAnswers => 35
  | MultipleSubmissionsWithin5Seconds => 20
  end.

(** The points of a list of issues, added up from 0 in the order of the
    list. *)
Definition totalPoints (issues : list Issue) : Q :=
  fold_left (fun score issue => score + points issue) issues 0.

(** The score of an analyzer state is the sum of the points of its flags. *)
Definition accounted (st : Anomalies) : Prop :=
  snd st = totalPoints (fst st).

Definition Issue_eqb (i j : Issue) : bool :=
  match i, j with
  | ExtremelySlowTyping, ExtremelySlowTyping
  | UnrealisticallyFastTyping, UnrealisticallyFastTyping
  | SuspiciouslyConsistentTyping, SuspiciouslyConsistentTyping
  | VeryFewThinkingPauses, VeryFewThinkingPauses
  | UnusuallyLongPauses, UnusuallyLongPauses
  | NoAnswerRevisions, NoAnswerRevisions
  | ExcessiveAnswerRevisions, ExcessiveAnswerRevisions
  | SuspiciouslyFastCompletion, SuspiciouslyFastCompletion
  | FasterThanPeers, FasterThanPeers
  | UnusuallySlowCompletion, UnusuallySlowCompletion
  | UnnaturallyConsistentTiming, UnnaturallyConsistentTiming
  | TooManyInstantAnswers, TooManyInstantAnswers
  | MultipleSubmissionsWithin5Seconds, MultipleSubmissionsWithin5Seconds =>
      true
  | _, _ => false
  end.

(** [l] is obtained from [order] by leaving issues out. *)
Fixpoint selectedFrom (order l : list Issue) : bool :=
  match l, order with
  | [], _ => true
  | _ :: _, [] => false
  | i :: l', j :: order' =>
      if Issue_eqb i j then selectedFrom order' l' else selectedFrom order' l
  end.

(** The issues of the typing analyzer, in the order it checks them. *)
Definition typingIssues : list Issue :=
  [ExtremelySlowTyping; UnrealisticallyFastTyping;
   SuspiciouslyConsistentTyping; VeryFewThinkingPauses; UnusuallyLongPauses;
   NoAnswerRevisions; ExcessiveAnswerRevisions].

(** The issues of the time analyzer, in the order it checks them. *)
Definition timeIssues : list Issue :=
  [SuspiciouslyFastCompletion; FasterThanPeers; UnusuallySlowCompletion;
   UnnaturallyConsistentTiming; TooManyInstantAnswers;
   MultipleSubmissionsWithin5Seconds].

(** [i] is among [l]. *)
Definition raised (i : Issue) (l : list Issue) : bool :=
  existsb (Issue_eqb i) l.

Definition FlagType_eqb (t u : FlagType) : bool :=
  match t, u with
  | ANSWER_SIMILARITY, ANSWER_SIMILARITY
  | TYPING_PATTERN, TYPING_PATTERN
  | TIME_ANOMALY, TIME_ANOMALY => true
  | _, _ => false
  end.

(** The result carries a flag of category [t]. *)
Definition flagged (t : FlagType) (r : AnalysisResult) : bool :=
  existsb (fun f => FlagType_eqb (flagType f) t) (flags r).

(** The severities, from the mildest to the gravest. *)
Definition severityRank (s : Severity) : nat :=
  match s with INFO => 0 | LOW => 1 | MEDIUM => 2 | HIGH => 3 end.

(** ** The plagiarism report endpoints of server.js *)

(** A result stored with the quiz, as far as the report endpoints read it;
    any of the fields may be missing from the stored object. *)
Record StoredResult : Type := {
  storedParticipantId : option string;
  storedParticipantName : option string;
  storedScore : option Q;
  storedPercentage : option Q;
  storedCompletionTime : option Q;
  storedTimestamp : option string;
  plagiarismAnalysis : option AnalysisResult
}.

(** An entry of the report: the fields copied from a stored result whose
    analysis is present and suspicious. *)
Record FlaggedSubmission : Type := {
  flaggedParticipantId : option string;
  flaggedParticipantName : option string;
  flaggedScore : option Q;
  flaggedPercentage : option Q;
  flaggedCompletionTime : option Q;
  flaggedTimestamp : option string;
  flaggedAnalysis : AnalysisResult
}.

(** [quiz.results.filter(r => r.plagiarismAnalysis &&
    r.plagiarismAnalysis.isSuspicious).map(r => ({...}))]: the filter keeps
    the results with an analysis, which the map then copies. *)
Definition flaggedEntries (results : list StoredResult)
  : list FlaggedSubmission :=
  flat_map
    (fun r =>
       match plagiarismAnalysis r with
       | Some analysis =>
           if isSuspicious analysis
           then [{| flaggedParticipantId := storedParticipantId r;
                    flaggedParticipantName := storedParticipantName r;
                    flaggedScore := storedScore r;
                    flaggedPercentage := storedPercentage r;
                    flaggedCompletionTime := storedCompletionTime r;
                    flaggedTimestamp := storedTimestamp r;
                    flaggedAnalysis := analysis |}]
           else []
       | None => []
       end)
    results.

(** [(a, b) => b.plagiarismAnalysis.suspicionScore
               - a.plagiarismAnalysis.suspicionScore] *)
Definition byAnalysisDescending (a b : FlaggedSubmission) : Z :=
  (suspicionScore (flaggedAnalysis b) - suspicionScore (flaggedAnalysis a))%Z.

(** The body of the report, without [quizName]. *)
Record PlagiarismReport : Type := {
  reportTotalSubmissions : nat;
  reportFlaggedSubmissions : nat;
  reportSubmissions : list FlaggedSubmission
}.

Definition plagiarismReport (results : list StoredResult) : PlagiarismReport :=
  let flaggedSubmissions :=
    sortBy byAnalysisDescending (flaggedEntries results) in
  {| reportTotalSubmissions := List.length results;
     reportFlaggedSubmissions := List.length flaggedSubmissions;
     reportSubmissions := flaggedSubmissions |}.

(** The stored results whose analysis is present and suspicious. *)
Definition storedSuspicious (r : StoredResult) : bool :=
  match plagiarismAnalysis r with
  | Some analysis => isSuspicious analysis
  | None => false
  end.

(** A string answer that is not blank and whose normalized form has at
    most 20 characters: one that is compared exactly. *)
Definition shortText (s : string) : bool :=
  negb (blank s)
  && (JsString.length (JsString.trim (JsString.toLowerCase s)) <=? 20)%nat.

(** The two strings of a pair are equal once normalized. *)
Definition sameText (p : string * string) : bool :=
  String.eqb (JsString.trim (JsString.toLowerCase (fst p)))
             (JsString.trim (JsString.toLowerCase (snd p))).

(** The integer [k], added up [n] times, stays below 2^53: the sums the
    code forms over [n] numbers equal to [k] are exact in its arithmetic. *)
Definition exactSum (k : Z) (n : nat) : Prop :=
  (Z.abs k * Z.of_nat n < 2 ^ 53)%Z.

(** The stored result an entry of the report was copied from, as far as
    the report endpoints read it. *)
Definition asStored (e : FlaggedSubmission) : StoredResult :=
  {| storedParticipantId := flaggedParticipantId e;
     storedParticipantName := flaggedParticipantName e;
     storedScore := flaggedScore e;
     storedPercentage := flaggedPercentage e;
     storedCompletionTime := flaggedCompletionTime e;
     storedTimestamp := flaggedTimestamp e;
     plagiarismAnalysis := Some (flaggedAnalysis e) |}.

(** Further sample inputs. *)
Module MoreExamples.

Local Open Scope string_scope.

(** A participant with the answers of [Examples.parisB] who finished a
    one-question quiz in one second, answering instantly. *)
Definition hasty : Submission :=
  {| participantId := "c";
     participantName := "c";
     answers := Some (map AStr ["paris"; "4"]);
     completionTime := Some 1;
     timestamp := NoTimestamp;
     typingData := None;
     questionTimes := Some [0; 0] |}.

(** A participant who spent four seconds on each of six questions. *)
Definition steady : Submission :=
  {| participantId := "d";
     participantName := "d";
     answers := None;
     completionTime := Some 24;
     timestamp := NoTimestamp;
     typingData := None;
     questionTimes := Some [4; 4; 4; 4; 4; 4] |}.

(** A participant who answered but whose start was never recorded, so
    that the server passes a null completionTime. *)
Definition unstarted : Submission :=
  {| participantId := "e";
     participantName := "e";
     answers := Some [AStr "paris"];
     completionTime := None;
     timestamp := NoTimestamp;
     typingData := None;
     questionTimes := None |}.

(** Telemetry of a participant who typed 600 WPM on both questions. *)
Definition racing : TypingData :=
  {| questionTypingSpeeds := Some [600; 600];
     pausePatterns := None;
     answerChanges := None;
     totalTime := 20;
     totalQuestions := 2 |}.

End MoreExamples.

(** * Properties *)

Local Open Scope nat_scope.

(** ** Rational arithmetic *)

Section Numbers.

Local Open Scope Q_scope.

Lemma Qlt_bool_iff (x y : Q) : Qlt_bool x y = true <-> x < y.
Proof.
  unfold Qlt_bool. rewrite negb_true_iff.
  split; intro H.
  - apply Qnot_le_lt. intro L. apply Qle_bool_iff in L. congruence.
  - destruct (Qle_bool y x) eqn:E; [|reflexivity].
    apply Qle_bool_iff in E. exfalso. exact (Qlt_not_le _ _ H E).
Qed.

Lemma Qge_bool_iff (x y : Q) : Qge_bool x y = true <-> y <= x.
Proof. apply Qle_bool_iff. Qed.

Lemma Qge_bool_false (x y : Q) : Qge_bool x y = false <-> x < y.
Proof.
  unfold Qge_bool. rewrite <- Qlt_bool_iff. unfold Qlt_bool.
  now rewrite negb_true_iff.
Qed.

Lemma ofNat_nonneg (n : nat) : 0 <= ofNat n.
Proof.
  unfold ofNat. change 0 with (inject_Z 0). rewrite <- Zle_Qle. lia.
Qed.

Lemma ofNat_pos (n : nat) : (0 < n)%nat -> 0 < ofNat n.
Proof.
  intro H. unfold ofNat. change 0 with (inject_Z 0). rewrite <- Zlt_Qlt. lia.
Qed.

Lemma ofNat_le (n m : nat) : (n <= m)%nat -> ofNat n <= ofNat m.
Proof. intro H. unfold ofNat. rewrite <- Zle_Qle. lia. Qed.

Lemma ofNat_S (n : nat) : ofNat (S n) == ofNat n + 1.
Proof.
  unfold ofNat. rewrite Nat2Z.inj_succ. unfold Z.succ.
  rewrite inject_Z_plus. reflexivity.
Qed.

Lemma Qdiv_self (x : Q) : 0 < x -> x / x == 1.
Proof.
  intro H. apply Qmult_inv_r. intro E. rewrite E in H.
  exact (Qlt_irrefl _ H).
Qed.

Lemma Qdiv_unit_interval (a b : Q) :
  0 < b -> 0 <= a -> a <= b -> 0 <= a / b /\ a / b <= 1.
Proof.
  intros Hb Ha Hab. split.
  - apply Qle_shift_div_l; [exact Hb|]. now rewrite Qmult_0_l.
  - apply Qle_shift_div_r; [exact Hb|]. now rewrite Qmult_1_l.
Qed.

Lemma mathMax_l (x y : Q) : x <= mathMax x y.
Proof.
  unfold mathMax. destruct (Qle_bool x y) eqn:E.
  - now apply Qle_bool_iff.
  - apply Qle_refl.
Qed.

Lemma mathMax_r (x y : Q) : y <= mathMax x y.
Proof.
  unfold mathMax. destruct (Qle_bool x y) eqn:E.
  - apply Qle_refl.
  - apply Qlt_le_weak, Qlt_bool_iff. unfold Qlt_bool. now rewrite E.
Qed.

Lemma mathMax_cases (x y : Q) : mathMax x y = x \/ mathMax x y = y.
Proof. unfold mathMax. destruct (Qle_bool x y); auto. Qed.

Lemma mathMin_bounds (x b : Q) :
  0 <= x -> 0 <= b -> 0 <= mathMin x b /\ mathMin x b <= b.
Proof.
  intros Hx Hb. unfold mathMin. destruct (Qle_bool x b) eqn:E.
  - apply Qle_bool_iff in E. auto.
  - split; [exact Hb|apply Qle_refl].
Qed.

Lemma mathRound_nearest (x : Q) :
  inject_Z (mathRound x) - (1 # 2) <= x /\ x < inject_Z (mathRound x) + (1 # 2).
Proof.
  unfold mathRound.
  pose proof (Qfloor_le (x + (1 # 2))) as L.
  pose proof (Qlt_floor (x + (1 # 2))) as U.
  rewrite inject_Z_plus in U. simpl inject_Z at 2 in U.
  split.
  - apply (Qplus_le_l _ _ (1 # 2)). ring_simplify. ring_simplify in L.
    exact L.
  - apply (Qplus_lt_l _ _ (1 # 2)).
    setoid_replace (inject_Z (Qfloor (x + (1 # 2))) + (1 # 2) + (1 # 2))
      with (inject_Z (Qfloor (x + (1 # 2))) + 1) by ring.
    exact U.
Qed.

Lemma mathRound_bounds (x : Q) :
  0 <= x -> x <= 100 -> (0 <= mathRound x <= 100)%Z.
Proof.
  intros L U. unfold mathRound. split.
  - change 0%Z with (Qfloor (0 + (1 # 2))).
    apply Qfloor_resp_le. now apply Qplus_le_l.
  - change 100%Z with (Qfloor (100 + (1 # 2))).
    apply Qfloor_resp_le. now apply Qplus_le_l.
Qed.

End Numbers.

(** ** Sets of strings *)

Section Sets.

Lemma has_In (s : list string) (x : string) :
  JsSet.has s x = true <-> In x s.
Proof.
  unfold JsSet.has. rewrite existsb_exists. split.
  - intros [y [Hy E]]. apply String.eqb_eq in E. now subst.
  - intro H. exists x. split; [exact H|apply String.eqb_refl].
Qed.

Lemma add_In (s : list string) (x y : string) :
  In y (JsSet.add s x) <-> In y s \/ y = x.
Proof.
  unfold JsSet.add. destruct (JsSet.has s x) eqn:E.
  - apply has_In in E. split; [auto|]. intros [H|H]; [exact H|now subst].
  - rewrite in_app_iff. simpl. intuition auto.
Qed.

Lemma add_NoDup (s : list string) (x : string) :
  NoDup s -> NoDup (JsSet.add s x).
Proof.
  intro H. unfold JsSet.add. destruct (JsSet.has s x) eqn:E; [exact H|].
  apply NoDup_app; [exact H|repeat constructor; auto|].
  intros y Hy [<-|[]]. apply has_In in Hy. congruence.
Qed.

Lemma fold_add_In (l s : list string) (y : string) :
  In y (fold_left JsSet.add l s) <-> In y s \/ In y l.
Proof.
  revert s; induction l as [|x l IH]; intro s; simpl.
  - intuition auto.
  - rewrite IH, add_In. intuition auto.
Qed.

Lemma fold_add_NoDup (l s : list string) :
  NoDup s -> NoDup (fold_left JsSet.add l s).
Proof.
  revert s; induction l as [|x l IH]; intros s H; simpl; [exact H|].
  apply IH, add_NoDup, H.
Qed.

Lemma fold_add_absorb (l s : list string) :
  incl l s -> fold_left JsSet.add l s = s.
Proof.
  revert s; induction l as [|x l IH]; intros s H; simpl; [reflexivity|].
  assert (E : JsSet.add s x = s).
  { unfold JsSet.add. replace (JsSet.has s x) with true; [reflexivity|].
    symmetry. apply has_In, H. now left. }
  rewrite E. apply IH. intros y Hy. apply H. now right.
Qed.

Lemma fold_add_length (l s : list string) :
  List.length s <= List.length (fold_left JsSet.add l s).
Proof.
  revert s; induction l as [|x l IH]; intro s; simpl; [lia|].
  etransitivity; [|apply IH].
  unfold JsSet.add. destruct (JsSet.has s x); [lia|].
  rewrite length_app. lia.
Qed.

Lemma ofList_In (l : list string) (y : string) :
  In y (JsSet.ofList l) <-> In y l.
Proof. unfold JsSet.ofList. rewrite fold_add_In. simpl. intuition auto. Qed.

Lemma ofList_NoDup (l : list string) : NoDup (JsSet.ofList l).
Proof. apply fold_add_NoDup. constructor. Qed.

Lemma ofList_nonempty (l : list string) :
  l <> [] -> 0 < JsSet.size (JsSet.ofList l).
Proof.
  destruct l as [|x l]; [congruence|]. intros _.
  unfold JsSet.size, JsSet.ofList. simpl.
  pose proof (fold_add_length l (JsSet.add [] x)) as H.
  unfold JsSet.add in H at 1. simpl in H. lia.
Qed.

Lemma fold_add_fresh (l s : list string) :
  NoDup (s ++ l) -> fold_left JsSet.add l s = s ++ l.
Proof.
  revert s; induction l as [|x l IH]; intros s H; simpl.
  - now rewrite app_nil_r.
  - assert (E : JsSet.add s x = s ++ [x]).
    { unfold JsSet.add. destruct (JsSet.has s x) eqn:F; [|reflexivity].
      apply has_In in F. apply NoDup_remove_2 in H.
      exfalso. apply H. apply in_or_app. now left. }
    rewrite E, IH; rewrite <- app_assoc; [reflexivity|exact H].
Qed.

Lemma ofList_NoDup_id (s : list string) : NoDup s -> JsSet.ofList s = s.
Proof. intro H. unfold JsSet.ofList. now rewrite fold_add_fresh. Qed.

Lemma filter_has_self (s : list string) : filter (JsSet.has s) s = s.
Proof.
  apply forallb_filter_id. apply forallb_forall.
  intros x Hx. now apply has_In.
Qed.

Lemma splitLoop_nonempty (inws : bool) (cur l : list ascii) :
  JsString.splitLoop inws cur l <> [].
Proof.
  revert inws cur; induction l as [|c l IH]; intros inws cur; simpl.
  - discriminate.
  - destruct (JsString.isSpace c); [destruct inws|]; try apply IH.
    discriminate.
Qed.

End Sets.

(** ** Levenshtein distance *)

Section EditDistance.

Lemma editDist_nil_r (p : list ascii) : editDist p [] = List.length p.
Proof. destruct p; reflexivity. Qed.

Lemma editDist_cons (a b : ascii) (p q : list ascii) :
  editDist (a :: p) (b :: q) =
  if Ascii.eqb a b then editDist p q
  else Nat.min (editDist p (b :: q) + 1)
               (Nat.min (editDist (a :: p) q + 1) (editDist p q + 1)).
Proof. reflexivity. Qed.

Lemma editDist_sym (p q : list ascii) : editDist p q = editDist q p.
Proof.
  revert q; induction p as [|a p IHp]; intro q.
  - now rewrite editDist_nil_r.
  - induction q as [|b q IHq].
    + reflexivity.
    + rewrite !editDist_cons, (Ascii.eqb_sym b a).
      destruct (Ascii.eqb a b); [apply IHp|].
      rewrite IHq, (IHp (b :: q)), (IHp q). lia.
Qed.

Lemma editDist_refl (p : list ascii) : editDist p p = 0.
Proof.
  induction p as [|a p IHp]; [reflexivity|].
  now rewrite editDist_cons, Ascii.eqb_refl.
Qed.

Lemma editDist_le_max (p q : list ascii) :
  editDist p q <= Nat.max (List.length p) (List.length q).
Proof.
  revert q; induction p as [|a p IHp]; intro q.
  - simpl. lia.
  - induction q as [|b q IHq].
    + simpl. lia.
    + rewrite editDist_cons.
      destruct (Ascii.eqb a b).
      * specialize (IHp q). simpl. lia.
      * specialize (IHp q). simpl List.length. lia.
Qed.

Lemma specRow_nil (rq t : list ascii) :
  specRow [] rq t = seq (List.length rq) (S (List.length t)).
Proof.
  revert rq; induction t as [|b t IH]; intro rq; [reflexivity|].
  simpl specRow. rewrite IH. reflexivity.
Qed.

Lemma fillRow_spec (c : ascii) (rp : list ascii) (t rq : list ascii) :
  fillRow c (editDist (c :: rp) rq) (specRow rp rq t) t =
  tl (specRow (c :: rp) rq t).
Proof.
  revert rq; induction t as [|b t IH]; intro rq; [reflexivity|].
  cbn [specRow tl].
  destruct t as [|b' t].
  - cbn [specRow fillRow]. rewrite editDist_cons. reflexivity.
  - specialize (IH (b :: rq)).
    cbn [specRow fillRow tl] in *.
    rewrite <- editDist_cons. f_equal. exact IH.
Qed.

Lemma nextRow_spec (c : ascii) (rp t : list ascii) :
  nextRow (S (List.length rp)) c (specRow rp [] t) t = specRow (c :: rp) [] t.
Proof.
  unfold nextRow.
  replace (S (List.length rp)) with (editDist (c :: rp) []) by reflexivity.
  rewrite fillRow_spec. destruct t; reflexivity.
Qed.

Lemma fillTable_spec (s rp t : list ascii) :
  nth (List.length s)
      (specRow rp [] t :: fillTable (S (List.length rp)) s (specRow rp [] t) t)
      [] = specRow (rev s ++ rp) [] t.
Proof.
  revert rp; induction s as [|c s IH]; intro rp; [reflexivity|].
  cbn [List.length nth fillTable].
  rewrite nextRow_spec.
  etransitivity; [exact (IH (c :: rp))|].
  cbn [rev]. now rewrite <- app_assoc.
Qed.

Lemma specRow_nth (rp t rq : list ascii) :
  nth (List.length t) (specRow rp rq t) 0 = editDist rp (rev t ++ rq).
Proof.
  revert rq; induction t as [|b t IH]; intro rq; [reflexivity|].
  cbn [List.length specRow nth]. rewrite IH. cbn [rev].
  now rewrite <- app_assoc.
Qed.

Lemma levenshteinDistance_editDist (str1 str2 : string) :
  levenshteinDistance str1 str2 =
  editDist (rev (JsString.chars str1)) (rev (JsString.chars str2)).
Proof.
  unfold levenshteinDistance, dpTable.
  cbv zeta.
  set (s := JsString.chars str1); set (t := JsString.chars str2).
  assert (E : firstRow (List.length t) = specRow [] [] t)
    by (symmetry; apply specRow_nil).
  rewrite E.
  pose proof (fillTable_spec s [] t) as R. cbn [List.length] in R.
  rewrite R, specRow_nth, !app_nil_r. reflexivity.
Qed.

Lemma levenshteinDistance_sym (a b : string) :
  levenshteinDistance a b = levenshteinDistance b a.
Proof. rewrite !levenshteinDistance_editDist. apply editDist_sym. Qed.

Lemma levenshteinDistance_refl (a : string) : levenshteinDistance a a = 0.
Proof. rewrite levenshteinDistance_editDist. apply editDist_refl. Qed.

Lemma levenshteinDistance_le_max (a b : string) :
  levenshteinDistance a b <= Nat.max (JsString.length a) (JsString.length b).
Proof.
  rewrite levenshteinDistance_editDist. unfold JsString.length.
  rewrite <- (length_rev (JsString.chars a)).
  rewrite <- (length_rev (JsString.chars b)).
  apply editDist_le_max.
Qed.

(** The recurrence moves by at most one when a character is added to or
    removed from one side. *)
Lemma editDist_step (n : nat) (p q : list ascii) (a : ascii) :
  List.length p + List.length q <= n ->
  editDist (a :: p) q <= S (editDist p q)
  /\ editDist p q <= S (editDist (a :: p) q).
Proof.
  revert p q a; induction n as [|n IH]; intros p q a L.
  - destruct p; destruct q; simpl in L; try lia. simpl. lia.
  - destruct q as [|b q].
    + rewrite !editDist_nil_r. simpl. lia.
    + simpl List.length in L.
      assert (Lq : List.length q + List.length p <= n) by lia.
      assert (Lp : List.length p + List.length q <= n) by lia.
      destruct (IH q p b Lq) as [A1 B1].
      destruct (IH p q a Lp) as [A2 B2].
      rewrite (editDist_sym (b :: q) p) in A1, B1.
      rewrite (editDist_sym q p) in A1, B1.
      rewrite editDist_cons.
      destruct (Ascii.eqb a b); lia.
Qed.

Lemma editDist_delete (p q : list ascii) (a : ascii) :
  editDist (a :: p) q <= S (editDist p q).
Proof. eapply editDist_step. apply Nat.le_refl. Qed.

Lemma editDist_insert (p q : list ascii) (b : ascii) :
  editDist p (b :: q) <= S (editDist p q).
Proof.
  rewrite (editDist_sym p (b :: q)), (editDist_sym p q).
  apply editDist_delete.
Qed.

Lemma editDist_substitute (p q : list ascii) (a b : ascii) :
  editDist (a :: p) (b :: q) <= S (editDist p q).
Proof. rewrite editDist_cons. destruct (Ascii.eqb a b); lia. Qed.

(** No script is shorter than the recurrence says. *)
Lemma Edits_lower (s t : list ascii) (n : nat) :
  Edits s t n -> editDist (rev s) (rev t) <= n.
Proof.
  induction 1 as [|c s t n E IH|a b s t n E IH|a s t n E IH|b s t n E IH];
    rewrite ?rev_unit.
  - reflexivity.
  - now rewrite editDist_cons, Ascii.eqb_refl.
  - pose proof (editDist_substitute (rev s) (rev t) a b). lia.
  - pose proof (editDist_delete (rev s) (rev t) a). lia.
  - pose proof (editDist_insert (rev s) (rev t) b). lia.
Qed.

(** Some script is as short as the recurrence says. *)
Lemma Edits_attained (p q : list ascii) :
  Edits (rev p) (rev q) (editDist p q).
Proof.
  revert q; induction p as [|a p IHp]; intro q.
  - induction q as [|b q IHq]; [constructor|].
    cbn [rev editDist List.length] in *. now apply (EditsInsert b [] (rev q)).
  - induction q as [|b q IHq].
    + rewrite editDist_nil_r. cbn [rev List.length].
      specialize (IHp []). rewrite editDist_nil_r in IHp.
      now apply (EditsDelete a (rev p) []).
    + rewrite editDist_cons. cbn [rev] in *.
      destruct (Ascii.eqb_spec a b) as [->|N].
      * apply EditsKeep, IHp.
      * destruct (Nat.min_spec (editDist p (b :: q) + 1)
                    (Nat.min (editDist (a :: p) q + 1) (editDist p q + 1)))
          as [[_ ->]|[_ ->]].
        -- rewrite Nat.add_1_r. apply EditsDelete, (IHp (b :: q)).
        -- destruct (Nat.min_spec (editDist (a :: p) q + 1)
                       (editDist p q + 1)) as [[_ ->]|[_ ->]];
             rewrite Nat.add_1_r.
           ++ apply EditsInsert, IHq.
           ++ apply EditsSubstitute, IHp.
Qed.

Lemma levenshteinDistance_attained (a b : string) :
  Edits (JsString.chars a) (JsString.chars b) (levenshteinDistance a b).
Proof.
  rewrite levenshteinDistance_editDist.
  rewrite <- (rev_involutive (JsString.chars a)) at 1.
  rewrite <- (rev_involutive (JsString.chars b)) at 1.
  apply Edits_attained.
Qed.

Lemma levenshteinDistance_lower (a b : string) (n : nat) :
  Edits (JsString.chars a) (JsString.chars b) n -> levenshteinDistance a b <= n.
Proof. rewrite levenshteinDistance_editDist. apply Edits_lower. Qed.

End EditDistance.

(** ** Text similarity *)

Section TextSimilarity.

Local Open Scope Q_scope.

Lemma length_zero_empty (a : string) :
  JsString.length a = 0%nat <-> a = EmptyString.
Proof.
  unfold JsString.length, JsString.chars.
  destruct a; simpl; split; congruence.
Qed.

Lemma jaccardSimilarity_self (s : string) : jaccardSimilarity s s == 1.
Proof.
  unfold jaccardSimilarity.
  set (tokens := JsString.splitWhitespace (JsString.toLowerCase s)).
  set (set1 := JsSet.ofList tokens). cbv zeta.
  assert (N : NoDup set1) by apply ofList_NoDup.
  assert (P : (0 < JsSet.size set1)%nat)
    by (apply ofList_nonempty, splitLoop_nonempty).
  rewrite filter_has_self, (ofList_NoDup_id set1 N).
  assert (U : JsSet.ofList (set1 ++ set1) = set1).
  { unfold JsSet.ofList. rewrite fold_left_app.
    fold (JsSet.ofList set1). rewrite (ofList_NoDup_id set1 N).
    apply fold_add_absorb, incl_refl. }
  rewrite U.
  destruct (Nat.eqb_spec (JsSet.size set1) 0); [lia|].
  apply Qdiv_self, ofNat_pos, P.
Qed.

Lemma jaccardSimilarity_bounds (a b : string) :
  0 <= jaccardSimilarity a b /\ jaccardSimilarity a b <= 1.
Proof.
  unfold jaccardSimilarity.
  set (set1 := JsSet.ofList
                 (JsString.splitWhitespace (JsString.toLowerCase a))).
  set (set2 := JsSet.ofList
                 (JsString.splitWhitespace (JsString.toLowerCase b))).
  cbv zeta.
  destruct (Nat.eqb_spec (JsSet.size (JsSet.ofList (set1 ++ set2))) 0) as [E|E].
  - split; [apply Qle_refl|discriminate].
  - apply Qdiv_unit_interval.
    + apply ofNat_pos. lia.
    + apply ofNat_nonneg.
    + apply ofNat_le. unfold JsSet.size.
      apply NoDup_incl_length; [apply ofList_NoDup|].
      intros x Hx. apply (proj1 (ofList_In _ _)) in Hx.
      apply filter_In in Hx.
      apply (proj2 (ofList_In _ _)), in_or_app. left. apply Hx.
Qed.

Lemma levenshteinSimilarity_self (s : string) : levenshteinSimilarity s s == 1.
Proof.
  unfold levenshteinSimilarity. cbv zeta.
  destruct (Nat.eqb_spec (Nat.max (JsString.length s) (JsString.length s)) 0);
    [reflexivity|].
  rewrite levenshteinDistance_refl. unfold ofNat at 1. simpl Z.of_nat.
  unfold Qdiv. rewrite Qmult_0_l. reflexivity.
Qed.

Lemma levenshteinSimilarity_bounds (a b : string) :
  0 <= levenshteinSimilarity a b /\ levenshteinSimilarity a b <= 1.
Proof.
  unfold levenshteinSimilarity. cbv zeta.
  set (m := Nat.max (JsString.length a) (JsString.length b)).
  destruct (Nat.eqb_spec m 0) as [E|E].
  - split; discriminate.
  - destruct (Qdiv_unit_interval (ofNat (levenshteinDistance a b)) (ofNat m))
      as [L U].
    + apply ofNat_pos. lia.
    + apply ofNat_nonneg.
    + apply ofNat_le, levenshteinDistance_le_max.
    + split.
      * apply (Qplus_le_l _ _ (ofNat (levenshteinDistance a b) / ofNat m)).
        ring_simplify. exact U.
      * apply (Qplus_le_l _ _ (ofNat (levenshteinDistance a b) / ofNat m)).
        ring_simplify.
        apply (Qplus_le_r _ _ 1) in L. ring_simplify in L. exact L.
Qed.

(** C5 (first half holds, second half fails): the Jaccard similarity of a
    string with itself is 1 for every string, and for two empty strings
    the function returns 1 as well, not 0: splitting the empty string
    yields one empty token, so the union is never empty. *)
Theorem jaccardSimilarity_identical_and_empty :
  (forall s : string, jaccardSimilarity s s == 1)
  /\ JsString.splitWhitespace EmptyString = [EmptyString]
  /\ jaccardSimilarity EmptyString EmptyString == 1
  /\ ~ jaccardSimilarity EmptyString EmptyString == 0.
Proof.
  split; [exact jaccardSimilarity_self|].
  split; [reflexivity|].
  split; [reflexivity|discriminate].
Qed.

(** C8: the Levenshtein similarity is 1 when both strings are empty and
    1 - distance / max(length) otherwise, and it is symmetric; the distance
    is the edit distance, the length of a shortest edit script. *)
Theorem levenshteinSimilarity_spec (a b : string) :
  levenshteinSimilarity a b =
    (if String.eqb a EmptyString && String.eqb b EmptyString then 1
     else 1 - ofNat (levenshteinDistance a b)
              / ofNat (Nat.max (JsString.length a) (JsString.length b)))
  /\ levenshteinSimilarity a b = levenshteinSimilarity b a
  /\ Edits (JsString.chars a) (JsString.chars b) (levenshteinDistance a b)
  /\ (forall n : nat, Edits (JsString.chars a) (JsString.chars b) n ->
                      (levenshteinDistance a b <= n)%nat).
Proof.
  split; [|split; [|split;
    [apply levenshteinDistance_attained|apply levenshteinDistance_lower]]].
  - unfold levenshteinSimilarity. cbv zeta.
    destruct (Nat.eqb_spec (Nat.max (JsString.length a) (JsString.length b)) 0)
      as [E|E].
    + assert (Ha : JsString.length a = 0%nat) by lia.
      assert (Hb : JsString.length b = 0%nat) by lia.
      apply length_zero_empty in Ha, Hb. subst. reflexivity.
    + destruct (String.eqb_spec a EmptyString) as [Ha|Ha];
        destruct (String.eqb_spec b EmptyString) as [Hb|Hb];
        try reflexivity.
      subst. exfalso. apply E. reflexivity.
  - unfold levenshteinSimilarity.
    now rewrite levenshteinDistance_sym, Nat.max_comm.
Qed.

End TextSimilarity.

(** ** Pairwise answer similarity *)

Section AnswerSimilarity.

Local Open Scope Q_scope.

Lemma positionScore_bounds (a b : Answer) :
  0 <= positionScore a b /\ positionScore a b <= 1.
Proof.
  assert (I : forall c : bool,
             0 <= (if c then 1 else 0) /\ (if c then 1 else 0) <= 1)
    by (intros []; split; discriminate).
  unfold positionScore.
  destruct a; destruct b; try apply I.
  destruct ((20 <? JsString.length s)%nat || (20 <? JsString.length s0)%nat);
    [|apply I].
  destruct (jaccardSimilarity_bounds s s0) as [J0 J1].
  destruct (levenshteinSimilarity_bounds s s0) as [L0 L1].
  split.
  - apply Qle_shift_div_l; [reflexivity|]. rewrite Qmult_0_l.
    change 0 with (0 + 0). now apply Qplus_le_compat.
  - apply Qle_shift_div_r; [reflexivity|].
    change (1 * 2) with (1 + 1). now apply Qplus_le_compat.
Qed.

Lemma positionScore_same_string (s : string) :
  positionScore (AStr s) (AStr s) == 1.
Proof.
  unfold positionScore.
  destruct ((20 <? JsString.length s)%nat || (20 <? JsString.length s)%nat).
  - rewrite jaccardSimilarity_self, levenshteinSimilarity_self. reflexivity.
  - now rewrite String.eqb_refl.
Qed.

(** The loop keeps [0 <= totalSimilarity <= comparableAnswers]. *)
Lemma similarityLoop_bounds (ps : list (Answer * Answer)) (acc : Q * nat) :
  0 <= fst acc /\ fst acc <= ofNat (snd acc) ->
  0 <= fst (fold_left similarityStep ps acc)
  /\ fst (fold_left similarityStep ps acc)
     <= ofNat (snd (fold_left similarityStep ps acc)).
Proof.
  revert acc; induction ps as [|p ps IH]; intros acc H; [exact H|].
  simpl. apply IH. unfold similarityStep. cbv zeta.
  destruct (truthy (normalizeAnswer (fst p))
            && truthy (normalizeAnswer (snd p))); [|exact H].
  destruct H as [H0 H1].
  destruct (positionScore_bounds (normalizeAnswer (fst p))
                                 (normalizeAnswer (snd p))) as [P0 P1].
  cbn [fst snd]. split.
  - change 0 with (0 + 0). now apply Qplus_le_compat.
  - rewrite ofNat_S. now apply Qplus_le_compat.
Qed.

Lemma calculateAnswerSimilarity_bounds (a1 a2 : option (list Answer)) :
  0 <= calculateAnswerSimilarity a1 a2 /\ calculateAnswerSimilarity a1 a2 <= 1.
Proof.
  assert (Z : 0 <= 0 /\ 0 <= 1) by (split; discriminate).
  unfold calculateAnswerSimilarity.
  destruct a1 as [l1|]; [|exact Z]. destruct a2 as [l2|]; [|exact Z].
  destruct (negb (List.length l1 =? List.length l2)%nat); [exact Z|].
  pose proof (similarityLoop_bounds (combine l1 l2) (0, 0%nat)) as B.
  destruct (fold_left similarityStep (combine l1 l2) (0, 0%nat)) as [t c].
  cbn [fst snd] in B.
  destruct (Nat.ltb_spec 0 c) as [C|C]; [|exact Z].
  destruct B as [B0 B1]; [split; discriminate|].
  apply Qdiv_unit_interval; auto using ofNat_pos.
Qed.

Lemma calculateAnswerSimilarity_absent_l (a2 : option (list Answer)) :
  calculateAnswerSimilarity None a2 = 0.
Proof. reflexivity. Qed.

Lemma calculateAnswerSimilarity_absent_r (a1 : option (list Answer)) :
  calculateAnswerSimilarity a1 None = 0.
Proof. destruct a1; reflexivity. Qed.

Lemma calculateAnswerSimilarity_mismatch (l1 l2 : list Answer) :
  List.length l1 <> List.length l2 ->
  calculateAnswerSimilarity (Some l1) (Some l2) = 0.
Proof.
  intro H. unfold calculateAnswerSimilarity.
  destruct (Nat.eqb_spec (List.length l1) (List.length l2)); [contradiction|].
  reflexivity.
Qed.

Lemma similarityStep_same_string (acc : Q * nat) (s : string) :
  similarityStep acc (AStr s, AStr s) =
  if blank s then acc
  else (fst acc
        + positionScore (normalizeAnswer (AStr s)) (normalizeAnswer (AStr s)),
        S (snd acc)).
Proof.
  unfold similarityStep. cbv zeta. cbn [fst snd normalizeAnswer truthy].
  fold (blank s). rewrite andb_diag. now destruct (blank s).
Qed.

(** On two copies of a sequence of strings every comparable position
    scores 1, and the comparable positions are the non-blank ones. *)
Lemma similarityLoop_identical (ss : list string) (acc : Q * nat) :
  fst acc == ofNat (snd acc) ->
  let r := fold_left similarityStep
             (combine (map AStr ss) (map AStr ss)) acc in
  fst r == ofNat (snd r)
  /\ snd r = (snd acc + List.length (filter (fun s => negb (blank s)) ss))%nat.
Proof.
  revert acc; induction ss as [|s ss IH]; intros acc H; cbv zeta.
  - simpl. split; [exact H|lia].
  - cbn [map combine fold_left filter].
    rewrite similarityStep_same_string.
    destruct (blank s); cbn [negb].
    + apply IH, H.
    + edestruct IH as [E1 E2]; [|split; [exact E1|]].
      * cbn [fst snd normalizeAnswer].
        rewrite positionScore_same_string, ofNat_S, H. reflexivity.
      * rewrite E2. cbn [fst snd List.length]. lia.
Qed.

Lemma calculateAnswerSimilarity_identical (ss : list string) :
  existsb (fun s => negb (blank s)) ss = true ->
  calculateAnswerSimilarity (Some (map AStr ss)) (Some (map AStr ss)) == 1.
Proof.
  intro H. unfold calculateAnswerSimilarity.
  rewrite Nat.eqb_refl. cbn [negb].
  destruct (similarityLoop_identical ss (0, 0%nat)) as [E1 E2];
    [reflexivity|].
  destruct (fold_left similarityStep
              (combine (map AStr ss) (map AStr ss)) (0, 0%nat)) as [t c].
  cbn [fst snd] in *.
  assert (P : (0 < c)%nat).
  { apply existsb_exists in H. destruct H as [s [Hs Hb]].
    assert (I : In s (filter (fun s => negb (blank s)) ss))
      by (apply filter_In; auto).
    destruct (filter (fun s => negb (blank s)) ss); [contradiction|].
    rewrite E2. simpl. lia. }
  destruct (Nat.ltb_spec 0 c); [|lia].
  rewrite E1. apply Qdiv_self, ofNat_pos, P.
Qed.

Lemma calculateAnswerSimilarity_all_blank (ss : list string) :
  existsb (fun s => negb (blank s)) ss = false ->
  calculateAnswerSimilarity (Some (map AStr ss)) (Some (map AStr ss)) = 0.
Proof.
  intro H. unfold calculateAnswerSimilarity.
  rewrite Nat.eqb_refl. cbn [negb].
  destruct (similarityLoop_identical ss (0, 0%nat)) as [E1 E2];
    [reflexivity|].
  destruct (fold_left similarityStep
              (combine (map AStr ss) (map AStr ss)) (0, 0%nat)) as [t c].
  cbn [fst snd] in *.
  assert (F : filter (fun s => negb (blank s)) ss = []).
  { clear - H. induction ss as [|s ss IH]; [reflexivity|].
    simpl in *. apply orb_false_iff in H. destruct H as [H1 H2].
    rewrite H1. auto. }
  rewrite F in E2. simpl in E2. subst c. reflexivity.
Qed.

End AnswerSimilarity.

(** ** The similarity analyzer *)

Section SimilarityAnalyzer.

Local Open Scope Q_scope.

Variable submission : Submission.

Lemma similarityVisit_cases (acc : list SuspiciousMatch * Q)
  (other : Submission) :
  similarityVisit submission acc other =
  if suspiciousOf submission other
  then (fst acc ++ [matchOf submission other],
        mathMax (snd acc) (pairScore submission other))
  else acc.
Proof.
  unfold similarityVisit, suspiciousOf, compared, matchOf, pairScore,
    similarityTo.
  destruct (String.eqb (participantId other) (participantId submission));
    [reflexivity|].
  destruct (answers other); [|reflexivity].
  cbn [negb orb andb].
  destruct (Qge_bool _ similarityThreshold); reflexivity.
Qed.

Lemma similarityLoop_filter (l : list Submission)
  (acc : list SuspiciousMatch * Q) :
  fold_left (similarityVisit submission) l acc =
  (fst acc ++ map (matchOf submission) (filter (suspiciousOf submission) l),
   fold_left mathMax
     (map (pairScore submission) (filter (suspiciousOf submission) l))
     (snd acc)).
Proof.
  revert acc; induction l as [|o l IH]; intro acc.
  - simpl. rewrite app_nil_r. now destruct acc.
  - cbn [fold_left filter]. rewrite IH, similarityVisit_cases.
    destruct (suspiciousOf submission o); [|reflexivity].
    cbn [fst snd map fold_left]. now rewrite <- app_assoc.
Qed.

Lemma detectAnswerSimilarity_filter (l : list Submission) :
  detectAnswerSimilarity submission l =
  (map (matchOf submission) (filter (suspiciousOf submission) l),
   fold_left mathMax
     (map (pairScore submission) (filter (suspiciousOf submission) l)) 0).
Proof. unfold detectAnswerSimilarity. now rewrite similarityLoop_filter. Qed.

Lemma suspiciousOf_score (other : Submission) :
  suspiciousOf submission other = true -> 85 <= pairScore submission other.
Proof.
  unfold suspiciousOf. intro H. apply andb_true_iff in H. destruct H as [_ H].
  apply Qge_bool_iff in H. unfold pairScore, similarityThreshold in *.
  apply (Qmult_le_compat_r _ _ 100) in H; [|discriminate].
  eapply Qle_trans; [|exact H]. discriminate.
Qed.

Lemma score_bounds (other : Submission) :
  0 <= pairScore submission other /\ pairScore submission other <= 100.
Proof.
  unfold pairScore, similarityTo.
  destruct (calculateAnswerSimilarity_bounds (answers submission)
                                             (answers other)) as [L U].
  split.
  - apply (Qmult_le_compat_r _ _ 100) in L; [|discriminate]. exact L.
  - apply (Qmult_le_compat_r _ _ 100) in U; [|discriminate]. exact U.
Qed.

End SimilarityAnalyzer.

Section RunningMaximum.

Local Open Scope Q_scope.

Lemma maxLoop_init (l : list Q) (m : Q) : m <= fold_left mathMax l m.
Proof.
  revert m; induction l as [|x l IH]; intro m; simpl; [apply Qle_refl|].
  eapply Qle_trans; [apply mathMax_l|apply IH].
Qed.

Lemma maxLoop_upper (l : list Q) (m x : Q) :
  In x l -> x <= fold_left mathMax l m.
Proof.
  revert m; induction l as [|y l IH]; intros m H; simpl; [contradiction|].
  destruct H as [->|H]; [|now apply IH].
  eapply Qle_trans; [apply mathMax_r|apply maxLoop_init].
Qed.

Lemma maxLoop_attained (l : list Q) (m : Q) :
  fold_left mathMax l m = m \/ In (fold_left mathMax l m) l.
Proof.
  revert m; induction l as [|y l IH]; intro m; simpl; [now left|].
  destruct (IH (mathMax m y)) as [E|I]; [|now right; right].
  rewrite E. destruct (mathMax_cases m y) as [->| ->]; auto.
Qed.

End RunningMaximum.

Section SimilarityClaims.

Local Open Scope Q_scope.

(** C1 (amended): the answerSimilarity score is the maximum of
    similarity x 100 over the other submissions that are compared and
    reach the 0.85 threshold: it bounds each of them and is attained by
    one of them, and it is 0 when there is none.  Pairs below the
    threshold do not contribute. *)
Theorem detectAnswerSimilarity_maxScore (submission : Submission)
  (allSubmissions : list Submission) :
  let maxScore := snd (detectAnswerSimilarity submission allSubmissions) in
  (forall other, In other allSubmissions ->
                 suspiciousOf submission other = true ->
                 similarityTo submission other * 100 <= maxScore)
  /\ ((maxScore = 0
       /\ forall other, In other allSubmissions ->
                        suspiciousOf submission other = false)
      \/ (exists other, In other allSubmissions
                        /\ suspiciousOf submission other = true
                        /\ maxScore = similarityTo submission other * 100)).
Proof.
  cbv zeta. rewrite detectAnswerSimilarity_filter. cbn [snd].
  set (sus := filter (suspiciousOf submission) allSubmissions).
  set (sc := pairScore submission).
  assert (U : forall other, In other allSubmissions ->
                suspiciousOf submission other = true ->
                sc other <= fold_left mathMax (map sc sus) 0).
  { intros other I S. apply maxLoop_upper, in_map, filter_In. auto. }
  split; [exact U|].
  destruct (maxLoop_attained (map sc sus) 0) as [E|I].
  - left. split; [exact E|].
    intros other I. destruct (suspiciousOf submission other) eqn:S; [|auto].
    exfalso. pose proof (U other I S) as B. rewrite E in B.
    pose proof (suspiciousOf_score submission other S) as B'.
    apply (Qle_not_lt _ _ (Qle_trans _ _ _ B' B)). reflexivity.
  - right. apply in_map_iff in I. destruct I as [other [E I]].
    apply filter_In in I. exists other. intuition auto.
Qed.

(** C10: the answerSimilarity score is either exactly 0 or at least 85,
    and it is nonzero exactly when the suspicious list is non-empty. *)
Theorem detectAnswerSimilarity_zero_or_above_threshold
  (submission : Submission) (allSubmissions : list Submission) :
  let suspicious := fst (detectAnswerSimilarity submission allSubmissions) in
  let maxScore := snd (detectAnswerSimilarity submission allSubmissions) in
  (maxScore == 0 \/ 85 <= maxScore)
  /\ (~ maxScore == 0 <-> suspicious <> []).
Proof.
  cbv zeta. rewrite detectAnswerSimilarity_filter. cbn [fst snd].
  set (sc := pairScore submission).
  destruct (filter (suspiciousOf submission) allSubmissions) as [|o sus] eqn:F.
  - simpl. split; [left; reflexivity|]. split; intro H; exfalso; apply H;
      reflexivity.
  - assert (S : suspiciousOf submission o = true).
    { assert (I : In o (filter (suspiciousOf submission) allSubmissions))
        by (rewrite F; now left).
      apply filter_In in I. apply I. }
    assert (B : 85 <= fold_left mathMax (map sc (o :: sus)) 0).
    { eapply Qle_trans; [apply (suspiciousOf_score submission o S)|].
      apply maxLoop_upper. now left. }
    split; [right; exact B|].
    split; intro H; [discriminate|].
    intro E. rewrite E in B. revert B. apply Qlt_not_le. reflexivity.
Qed.

End SimilarityClaims.

(** ** The anomaly analyzers *)

Section Analyzers.

Local Open Scope Q_scope.

Lemma grows_refl (st : Anomalies) : grows st st.
Proof. split; [apply Qle_refl|apply incl_refl]. Qed.

Lemma grows_trans (st1 st2 st3 : Anomalies) :
  grows st1 st2 -> grows st2 st3 -> grows st1 st3.
Proof.
  intros [A1 A2] [B1 B2]. split.
  - eapply Qle_trans; eassumption.
  - eapply incl_tran; eassumption.
Qed.

Lemma grows_flagIf (cond : bool) (issue : Issue) (points : Q)
  (st : Anomalies) :
  0 <= points -> grows st (flagIf cond issue points st).
Proof.
  intro P. unfold flagIf. destruct cond; [|apply grows_refl].
  split; cbn [fst snd].
  - rewrite <- (Qplus_0_r (snd st)) at 1. now apply Qplus_le_compat;
      [apply Qle_refl|].
  - apply incl_appl, incl_refl.
Qed.

Ltac grows_tac :=
  repeat (cbv zeta;
          match goal with
          | |- grows ?st ?st => apply grows_refl
          | |- grows _ (flagIf _ _ _ _) =>
              eapply grows_trans; [|apply grows_flagIf; discriminate]
          | |- grows _ (if ?c then _ else _) => destruct c
          | |- grows _ (match ?x with Some _ => _ | None => _ end) =>
              destruct x
          end).

Lemma checkTypingSpeed_grows (d : TypingData) (st : Anomalies) :
  grows st (checkTypingSpeed d st).
Proof. unfold checkTypingSpeed. grows_tac. Qed.

Lemma checkPausePatterns_grows (d : TypingData) (st : Anomalies) :
  grows st (checkPausePatterns d st).
Proof. unfold checkPausePatterns. grows_tac. Qed.

Lemma checkAnswerChanges_grows (d : TypingData) (st : Anomalies) :
  grows st (checkAnswerChanges d st).
Proof. unfold checkAnswerChanges. grows_tac. Qed.

Lemma checkCompletionTime_grows (s : Submission) (n : nat) (st : Anomalies) :
  grows st (checkCompletionTime s n st).
Proof. unfold checkCompletionTime. grows_tac. Qed.

Lemma checkPeers_grows (s : Submission) (l : list Submission)
  (st : Anomalies) : grows st (checkPeers s l st).
Proof. unfold checkPeers. grows_tac. Qed.

Lemma checkQuestionTimes_grows (s : Submission) (st : Anomalies) :
  grows st (checkQuestionTimes s st).
Proof. unfold checkQuestionTimes. grows_tac. Qed.

Lemma checkNearby_grows (s : Submission) (l : list Submission)
  (st : Anomalies) : grows st (checkNearby s l st).
Proof. unfold checkNearby. destruct (timestamp s); grows_tac. Qed.

Lemma finish_range (st : Anomalies) :
  0 <= snd st -> 0 <= snd (finish st) /\ snd (finish st) <= 100.
Proof. intro H. apply mathMin_bounds; [exact H|discriminate]. Qed.

Lemma finish_lower (st : Anomalies) (b : Q) :
  b <= 100 -> b <= snd st -> b <= snd (finish st).
Proof.
  intros B H. unfold finish, mathMin. cbn [snd].
  now destruct (Qle_bool (snd st) 100).
Qed.

Lemma analyzeTypingPattern_grows (d : TypingData) :
  grows ([], 0)
    (checkAnswerChanges d (checkPausePatterns d (checkTypingSpeed d ([], 0)))).
Proof.
  eapply grows_trans; [|apply checkAnswerChanges_grows].
  eapply grows_trans; [|apply checkPausePatterns_grows].
  apply checkTypingSpeed_grows.
Qed.

Lemma analyzeTypingPattern_range (d : TypingData) :
  0 <= snd (analyzeTypingPattern d) /\ snd (analyzeTypingPattern d) <= 100.
Proof. apply finish_range, (analyzeTypingPattern_grows d). Qed.

Lemma timeChecks_grow (s : Submission) (l : list Submission) (n : nat)
  (st : Anomalies) :
  grows st
    (checkNearby s l (checkQuestionTimes s (checkPeers s l st))).
Proof.
  eapply grows_trans; [|apply checkNearby_grows].
  eapply grows_trans; [|apply checkQuestionTimes_grows].
  apply checkPeers_grows.
Qed.

Lemma detectTimeAnomalies_range {Question : Type} (s : Submission)
  (l : list Submission) (questions : list Question) :
  0 <= snd (detectTimeAnomalies s l questions)
  /\ snd (detectTimeAnomalies s l questions) <= 100.
Proof.
  unfold detectTimeAnomalies. cbv zeta. apply finish_range.
  eapply (grows_trans ([], 0)); [|apply (timeChecks_grow s _ 0%nat)].
  apply checkCompletionTime_grows.
Qed.

(** An absent completion time is read as 0 seconds. *)
Lemma detectTimeAnomalies_untimed {Question : Type} (s : Submission)
  (l : list Submission) (questions : list Question) :
  completionTime s = None ->
  detectTimeAnomalies s l questions =
  detectTimeAnomalies (withCompletionTime s (Some 0)) l questions.
Proof.
  intro H. unfold detectTimeAnomalies, checkCompletionTime, checkPeers,
    checkQuestionTimes, checkNearby, completedSubmissions, withCompletionTime.
  cbn [participantId completionTime timestamp questionTimes].
  rewrite H. reflexivity.
Qed.

(** With at least one question, 0 seconds is below the 2 seconds per
    question, so the fast-completion rule fires. *)
Lemma detectTimeAnomalies_untimed_penalty {Question : Type} (s : Submission)
  (l : list Submission) (questions : list Question) :
  completionTime s = None -> questions <> [] ->
  In SuspiciouslyFastCompletion (fst (detectTimeAnomalies s l questions))
  /\ 40 <= snd (detectTimeAnomalies s l questions).
Proof.
  intros H N. unfold detectTimeAnomalies. cbv zeta.
  set (completed := completedSubmissions s l).
  assert (E : checkCompletionTime s (List.length questions) ([], 0)
              = ([SuspiciouslyFastCompletion], 0 + 40)).
  { unfold checkCompletionTime. rewrite H. cbn [orZero].
    replace (Qlt_bool 0 (suspiciousTimeThreshold
                         * ofNat (List.length questions))) with true;
      [reflexivity|].
    symmetry. apply Qlt_bool_iff.
    destruct questions as [|q qs]; [congruence|].
    unfold suspiciousTimeThreshold.
    apply (Qlt_le_trans _ (2 * 1)); [reflexivity|].
    apply Qmult_le_l; [reflexivity|].
    change 1 with (ofNat 1). apply ofNat_le. simpl. lia. }
  rewrite E.
  destruct (timeChecks_grow s completed 0%nat
              ([SuspiciouslyFastCompletion], 0 + 40)) as [G1 G2].
  split.
  - apply G2. now left.
  - apply finish_lower; [discriminate|exact G1].
Qed.

End Analyzers.

(** ** The risk aggregator *)

Section Aggregator.

Local Open Scope Q_scope.

Context {Question : Type}.

Lemma getSeverity_spec (score : Q) :
  (80 <= score -> getSeverity score = HIGH)
  /\ (60 <= score -> score < 80 -> getSeverity score = MEDIUM)
  /\ (40 <= score -> score < 60 -> getSeverity score = LOW)
  /\ (score < 40 -> getSeverity score = INFO).
Proof.
  unfold getSeverity.
  destruct (Qge_bool score 80) eqn:E1;
    [apply Qge_bool_iff in E1|apply Qge_bool_false in E1];
    (destruct (Qge_bool score 60) eqn:E2;
     [apply Qge_bool_iff in E2|apply Qge_bool_false in E2]);
    (destruct (Qge_bool score 40) eqn:E3;
     [apply Qge_bool_iff in E3|apply Qge_bool_false in E3]);
    repeat split; intros; try reflexivity; exfalso; lra.
Qed.

Lemma pushIf_In (cond : bool) (g f : Flag) (l : list Flag) :
  In f (pushIf cond g l) -> In f l \/ f = g.
Proof.
  unfold pushIf. destruct cond; [|auto].
  intro H. apply in_app_or in H. destruct H as [H|[H|[]]]; auto.
Qed.

Lemma pushIf_In_back (g f : Flag) (l : list Flag) :
  In f (pushIf true g l) <-> In f l \/ f = g.
Proof.
  unfold pushIf. rewrite in_app_iff. simpl. intuition auto.
Qed.

Lemma pushIf_keeps (cond : bool) (g f : Flag) (l : list Flag) :
  In f l -> In f (pushIf cond g l).
Proof.
  unfold pushIf. destruct cond; [|auto]. intro. apply in_or_app. now left.
Qed.

Variable submission : Submission.
Variable allSubmissions : list Submission.
Variable questions : list Question.

Local Abbreviation result :=
  (analyzeSubmission submission allSubmissions questions).

Lemma analyzeSubmission_answerSimilarity :
  answerSimilarity (scores result)
  = snd (detectAnswerSimilarity submission allSubmissions).
Proof.
  unfold analyzeSubmission.
  destruct (typingData submission); reflexivity.
Qed.

Lemma analyzeSubmission_typingPattern :
  typingPattern (scores result)
  = match typingData submission with
    | Some data => snd (analyzeTypingPattern data)
    | None => 0
    end.
Proof.
  unfold analyzeSubmission.
  destruct (typingData submission); reflexivity.
Qed.

Lemma analyzeSubmission_timeAnomaly :
  timeAnomaly (scores result)
  = snd (detectTimeAnomalies submission allSubmissions questions).
Proof.
  unfold analyzeSubmission.
  destruct (typingData submission); reflexivity.
Qed.

Lemma analyzeSubmission_suspicionScore :
  suspicionScore result
  = mathRound (weighted (answerSimilarity (scores result))
                        (typingPattern (scores result))
                        (timeAnomaly (scores result)))
  /\ overall (scores result) = suspicionScore result
  /\ isSuspicious result = (60 <=? suspicionScore result)%Z.
Proof.
  unfold analyzeSubmission.
  destruct (typingData submission); repeat split; reflexivity.
Qed.

Lemma analyzeSubmission_severity (f : Flag) :
  In f (flags result) ->
  severity f = getSeverity (categoryScore (scores result) (flagType f)).
Proof.
  unfold analyzeSubmission.
  destruct (typingData submission); cbn [flags scores]; intro H;
    repeat (apply pushIf_In in H; destruct H as [H| ->]);
    try contradiction; reflexivity.
Qed.

Lemma analyzeSubmission_similarity_flag :
  fst (detectAnswerSimilarity submission allSubmissions) <> [] ->
  In {| flagType := ANSWER_SIMILARITY;
        severity :=
          getSeverity (snd (detectAnswerSimilarity submission allSubmissions));
        details :=
          Matches (fst (detectAnswerSimilarity submission allSubmissions)) |}
     (flags result).
Proof.
  intro N. unfold analyzeSubmission.
  destruct (fst (detectAnswerSimilarity submission allSubmissions)) eqn:E;
    [congruence|].
  destruct (typingData submission); cbn [flags List.length Nat.ltb Nat.leb].
  - apply pushIf_keeps, pushIf_keeps, (proj2 (pushIf_In_back _ _ _)).
    now right.
  - apply pushIf_keeps, (proj2 (pushIf_In_back _ _ _)). now right.
Qed.

Lemma analyzeSubmission_no_typing_flag (f : Flag) :
  typingData submission = None ->
  In f (flags result) -> flagType f <> TYPING_PATTERN.
Proof.
  intro T. unfold analyzeSubmission. rewrite T. cbn [flags].
  intro H. repeat (apply pushIf_In in H; destruct H as [H| ->]);
    try contradiction; discriminate.
Qed.

Lemma weighted_range (a t m : Q) :
  0 <= a <= 100 -> 0 <= t <= 100 -> 0 <= m <= 100 ->
  0 <= weighted a t m /\ weighted a t m <= 100.
Proof.
  intros [A0 A1] [T0 T1] [M0 M1]. unfold weighted.
  assert (P : forall x w, 0 <= w -> 0 <= x -> x <= 100 ->
                0 <= x * w /\ x * w <= 100 * w).
  { intros x w W X0 X1. split.
    - now apply Qmult_le_0_compat.
    - now apply Qmult_le_compat_r. }
  destruct (P a (5 # 10)) as [PA0 PA1]; try assumption; [discriminate|].
  destruct (P t (3 # 10)) as [PT0 PT1]; try assumption; [discriminate|].
  destruct (P m (2 # 10)) as [PM0 PM1]; try assumption; [discriminate|].
  split.
  - change 0 with (0 + 0 + 0). repeat apply Qplus_le_compat; assumption.
  - setoid_replace 100
      with (100 * (5 # 10) + 100 * (3 # 10) + 100 * (2 # 10)) by reflexivity.
    repeat apply Qplus_le_compat; assumption.
Qed.

Lemma maxScore_range :
  0 <= snd (detectAnswerSimilarity submission allSubmissions)
  /\ snd (detectAnswerSimilarity submission allSubmissions) <= 100.
Proof.
  rewrite detectAnswerSimilarity_filter. cbn [snd].
  match goal with
  | |- context [fold_left mathMax ?l 0] =>
      destruct (maxLoop_attained l 0) as [E|I]
  end.
  - rewrite E. split; discriminate.
  - apply in_map_iff in I. destruct I as [o [<- _]]. apply score_bounds.
Qed.

End Aggregator.

Section AggregatorClaims.

Local Open Scope Q_scope.

Context {Question : Type}.

(** C2: the suspicionScore is round(answerSimilarity x 0.5 +
    typingPattern x 0.3 + timeAnomaly x 0.2), the nearest integer of that
    weighted sum, of the three analyzers' scores; isSuspicious holds
    exactly when it is at least 60; and the severity of every flag is HIGH
    when the score of its category is at least 80, MEDIUM when at least
    60, LOW when at least 40 and INFO otherwise. *)
Theorem analyzeSubmission_aggregation (submission : Submission)
  (allSubmissions : list Submission) (questions : list Question) :
  let result := analyzeSubmission submission allSubmissions questions in
  let s := scores result in
  let sum := answerSimilarity s * (5 # 10) + typingPattern s * (3 # 10)
             + timeAnomaly s * (2 # 10) in
  (answerSimilarity s = snd (detectAnswerSimilarity submission allSubmissions)
   /\ typingPattern s = match typingData submission with
                        | Some data => snd (analyzeTypingPattern data)
                        | None => 0
                        end
   /\ timeAnomaly s
      = snd (detectTimeAnomalies submission allSubmissions questions))
  /\ suspicionScore result = mathRound sum
  /\ (inject_Z (suspicionScore result) - (1 # 2) <= sum
      /\ sum < inject_Z (suspicionScore result) + (1 # 2))
  /\ (isSuspicious result = true <-> (60 <= suspicionScore result)%Z)
  /\ (forall f, In f (flags result) ->
        let c := categoryScore s (flagType f) in
        (80 <= c -> severity f = HIGH)
        /\ (60 <= c -> c < 80 -> severity f = MEDIUM)
        /\ (40 <= c -> c < 60 -> severity f = LOW)
        /\ (c < 40 -> severity f = INFO)).
Proof.
  cbv zeta.
  destruct (analyzeSubmission_suspicionScore submission allSubmissions
              questions) as [R [_ S]].
  unfold weighted in R.
  split; [|split; [exact R|split; [|split]]].
  - split; [apply analyzeSubmission_answerSimilarity|].
    split; [apply analyzeSubmission_typingPattern
           |apply analyzeSubmission_timeAnomaly].
  - rewrite R. apply mathRound_nearest.
  - rewrite S. apply Z.leb_le.
  - intros f H. rewrite (analyzeSubmission_severity _ _ _ f H).
    apply getSeverity_spec.
Qed.

(** C6: the three sub-scores and the overall suspicionScore produced by
    analyze lie in the closed interval [0, 100]. *)
Theorem analyzeSubmission_scores_in_range (submission : Submission)
  (allSubmissions : list Submission) (questions : list Question) :
  let result := analyzeSubmission submission allSubmissions questions in
  let s := scores result in
  (0 <= answerSimilarity s /\ answerSimilarity s <= 100)
  /\ (0 <= typingPattern s /\ typingPattern s <= 100)
  /\ (0 <= timeAnomaly s /\ timeAnomaly s <= 100)
  /\ (0 <= suspicionScore result <= 100)%Z
  /\ (0 <= overall s <= 100)%Z.
Proof.
  cbv zeta.
  destruct (analyzeSubmission_suspicionScore submission allSubmissions
              questions) as [R [O _]].
  assert (A : 0 <= answerSimilarity
                     (scores (analyzeSubmission submission allSubmissions
                                                questions)) <= 100).
  { rewrite analyzeSubmission_answerSimilarity. apply maxScore_range. }
  assert (T : 0 <= typingPattern
                     (scores (analyzeSubmission submission allSubmissions
                                                questions)) <= 100).
  { rewrite analyzeSubmission_typingPattern.
    destruct (typingData submission).
    - apply analyzeTypingPattern_range.
    - split; discriminate. }
  assert (M : 0 <= timeAnomaly
                     (scores (analyzeSubmission submission allSubmissions
                                                questions)) <= 100).
  { rewrite analyzeSubmission_timeAnomaly. apply detectTimeAnomalies_range. }
  assert (S : (0 <= suspicionScore
                      (analyzeSubmission submission allSubmissions questions)
               <= 100)%Z).
  { rewrite R. destruct (weighted_range _ _ _ A T M).
    now apply mathRound_bounds. }
  repeat split; try apply A; try apply T; try apply M; try apply S;
    rewrite O; apply S.
Qed.

(** What the analyzers do with absent fields: absent typingData gives a
    typingPattern score of 0 and no typing flag, and answer sequences of
    different lengths give a pairwise similarity of 0; the submission's own
    absent completionTime goes through [|| 0] and is then measured like a
    completion in 0 seconds, so that, the quiz having at least one
    question, the fast-completion rule fires and the timeAnomaly score is
    at least 40. *)
Theorem absent_fields (submission : Submission)
  (allSubmissions : list Submission) (questions : list Question) :
  let result := analyzeSubmission submission allSubmissions questions in
  (typingData submission = None ->
     typingPattern (scores result) = 0
     /\ forall f, In f (flags result) -> flagType f <> TYPING_PATTERN)
  /\ (forall answers1 answers2 : list Answer,
        List.length answers1 <> List.length answers2 ->
        calculateAnswerSimilarity (Some answers1) (Some answers2) = 0)
  /\ (completionTime submission = None ->
        detectTimeAnomalies submission allSubmissions questions
        = detectTimeAnomalies (withCompletionTime submission (Some 0))
                              allSubmissions questions)
  /\ (completionTime submission = None -> questions <> [] ->
        In SuspiciouslyFastCompletion
           (fst (detectTimeAnomalies submission allSubmissions questions))
        /\ 40 <= timeAnomaly (scores result)).
Proof.
  cbv zeta. split; [|split; [|split]].
  - intro T. split.
    + rewrite analyzeSubmission_typingPattern, T. reflexivity.
    + intros f. now apply analyzeSubmission_no_typing_flag.
  - apply calculateAnswerSimilarity_mismatch.
  - apply detectTimeAnomalies_untimed.
  - intros H N. rewrite analyzeSubmission_timeAnomaly.
    now apply detectTimeAnomalies_untimed_penalty.
Qed.

End AggregatorClaims.

Section Counterexamples.

Local Open Scope Q_scope.
Import Examples.

(** C1 fails as stated: [halfB] is compared with [halfA], their answer
    sequences have equal length and their similarity is 1/2, so the
    maximum of the claim is 50, while the analyzer returns 0. *)
Lemma maxScore_ignores_pairs_below_threshold :
  compared halfA halfB = true
  /\ sameLength halfA halfB = true
  /\ similarityTo halfA halfB == 1 # 2
  /\ pairwiseMaximum halfA [halfA; halfB] == 50
  /\ snd (detectAnswerSimilarity halfA [halfA; halfB]) == 0
  /\ ~ snd (detectAnswerSimilarity halfA [halfA; halfB])
       == pairwiseMaximum halfA [halfA; halfB].
Proof.
  repeat split; try reflexivity.
  intro H. vm_compute in H. discriminate.
Qed.

(** C3 (the code departs from the claim): [unstarted] has answers but no
    completionTime; on a quiz of one question and with nothing else to go
    on, the time analyzer reports a suspiciously fast completion and a
    timeAnomaly score of 40, where the claim says 0.  The same function
    leaves a peer without completionTime out of the completed submissions:
    among [unstarted] and [parisB], only [parisB] is a completed peer of
    [parisA]. *)
Lemma untimed_submission_penalized :
  completionTime MoreExamples.unstarted = None
  /\ detectTimeAnomalies MoreExamples.unstarted [] oneQuestion
     = ([SuspiciouslyFastCompletion], 40)
  /\ timeAnomaly
       (scores (analyzeSubmission MoreExamples.unstarted [] oneQuestion))
     == 40
  /\ ~ timeAnomaly
         (scores (analyzeSubmission MoreExamples.unstarted [] oneQuestion))
       == 0
  /\ completedSubmissions parisA [MoreExamples.unstarted; parisB] = [parisB].
Proof.
  repeat split; try reflexivity.
  intro H. vm_compute in H. discriminate.
Qed.

End Counterexamples.

(** ** Identical answers and matching positions *)

Section IdenticalAnswers.

Local Open Scope Q_scope.

Context {Question : Type}.

Lemma mathRound_100 (x : Q) : x == 1 -> mathRound (x * 100) = 100%Z.
Proof. intro E. unfold mathRound. rewrite E. reflexivity. Qed.

Lemma suspicious_maxScore (a other : Submission) (l : list Submission) :
  In other l -> suspiciousOf a other = true ->
  similarityTo a other * 100 <= snd (detectAnswerSimilarity a l)
  /\ In (matchOf a other) (fst (detectAnswerSimilarity a l)).
Proof.
  intros I S. rewrite detectAnswerSimilarity_filter. cbn [fst snd].
  assert (F : In other (filter (suspiciousOf a) l)) by (apply filter_In; auto).
  split.
  - apply maxLoop_upper.
    apply (in_map (pairScore a)), F.
  - apply in_map, F.
Qed.

(** What analyzing [a] reports about [b] when both gave the same strings,
    one of them at least not blank. *)
Lemma identical_answers_flagged_one (a b : Submission) (given : list string)
  (l : list Submission) (questions : list Question) :
  participantId a <> participantId b ->
  answers a = Some (map AStr given) ->
  answers b = Some (map AStr given) ->
  existsb (fun s => negb (blank s)) given = true ->
  In b l ->
  similarityTo a b == 1
  /\ snd (detectAnswerSimilarity a l) == 100
  /\ (exists m, In m (fst (detectAnswerSimilarity a l))
                /\ matchId m = participantId b
                /\ similarityScore m = 100%Z)
  /\ (exists f ms m, In f (flags (analyzeSubmission a l questions))
                     /\ flagType f = ANSWER_SIMILARITY
                     /\ severity f = HIGH
                     /\ details f = Matches ms
                     /\ In m ms /\ matchId m = participantId b).
Proof.
  intros D Ha Hb N I.
  assert (E : similarityTo a b == 1).
  { unfold similarityTo. rewrite Ha, Hb.
    now apply calculateAnswerSimilarity_identical. }
  assert (S : suspiciousOf a b = true).
  { unfold suspiciousOf, compared. rewrite Hb.
    destruct (String.eqb_spec (participantId b) (participantId a)) as [X|_];
      [congruence|].
    cbn [negb andb]. apply Qge_bool_iff. rewrite E. discriminate. }
  destruct (suspicious_maxScore a b l I S) as [U M].
  assert (V : snd (detectAnswerSimilarity a l) == 100).
  { apply Qle_antisym.
    - apply (maxScore_range a l).
    - rewrite E in U. exact U. }
  split; [exact E|]. split; [exact V|]. split.
  - exists (matchOf a b). split; [exact M|]. split; [reflexivity|].
    cbn [matchOf similarityScore]. now apply mathRound_100.
  - eexists. exists (fst (detectAnswerSimilarity a l)), (matchOf a b).
    split.
    + apply analyzeSubmission_similarity_flag.
      intro X. rewrite X in M. contradiction.
    + cbn [flagType severity details]. repeat split; auto.
      apply getSeverity_spec. rewrite V. discriminate.
Qed.

(** C4 (amended): two submissions with distinct participantIds and
    identical answer sequences of strings of at most 20 characters, at
    least one of which is not blank (not empty once lower-cased and
    trimmed), have pairwise similarity 1, and analyzing each with the
    other in the submission set lists the other as a suspicious match
    with score 100 under an ANSWER_SIMILARITY flag. *)
Theorem identical_answers_flagged (a b : Submission) (given : list string)
  (withB withA : list Submission) (questions : list Question) :
  participantId a <> participantId b ->
  answers a = Some (map AStr given) ->
  answers b = Some (map AStr given) ->
  Forall (fun s => (JsString.length s <= 20)%nat) given ->
  existsb (fun s => negb (blank s)) given = true ->
  In b withB -> In a withA ->
  (similarityTo a b == 1 /\ similarityTo b a == 1)
  /\ (snd (detectAnswerSimilarity a withB) == 100
      /\ snd (detectAnswerSimilarity b withA) == 100)
  /\ ((exists m, In m (fst (detectAnswerSimilarity a withB))
                 /\ matchId m = participantId b
                 /\ similarityScore m = 100%Z)
      /\ (exists m, In m (fst (detectAnswerSimilarity b withA))
                    /\ matchId m = participantId a
                    /\ similarityScore m = 100%Z))
  /\ ((exists f ms m, In f (flags (analyzeSubmission a withB questions))
                      /\ flagType f = ANSWER_SIMILARITY
                      /\ severity f = HIGH
                      /\ details f = Matches ms
                      /\ In m ms /\ matchId m = participantId b)
      /\ (exists f ms m, In f (flags (analyzeSubmission b withA questions))
                         /\ flagType f = ANSWER_SIMILARITY
                         /\ severity f = HIGH
                         /\ details f = Matches ms
                         /\ In m ms /\ matchId m = participantId a)).
Proof.
  intros D Ha Hb _ N Ib Ia.
  destruct (identical_answers_flagged_one a b given withB questions
              D Ha Hb N Ib) as [E1 [V1 [M1 F1]]].
  destruct (identical_answers_flagged_one b a given withA questions
              (not_eq_sym D) Hb Ha N Ia) as [E2 [V2 [M2 F2]]].
  repeat split; assumption.
Qed.

End IdenticalAnswers.

Section MatchingAnswers.




End MatchingAnswers.

Section MoreCounterexamples.

Local Open Scope Q_scope.
Import Examples.

(** C4 fails as stated: the two submissions have distinct participantIds
    and the same one-element sequence holding the empty string, which is
    skipped as not comparable, so their similarity is 0 and neither is
    listed as a suspicious match of the other. *)
Lemma identical_blank_answers_not_flagged :
  participantId blankA <> participantId blankB
  /\ answers blankA = Some [AStr EmptyString]
  /\ answers blankB = Some [AStr EmptyString]
  /\ similarityTo blankA blankB == 0
  /\ fst (detectAnswerSimilarity blankA [blankA; blankB]) = []
  /\ fst (detectAnswerSimilarity blankB [blankA; blankB]) = []
  /\ ~ similarityTo blankA blankB == 1.
Proof.
  repeat split; try reflexivity; try discriminate.
Qed.


End MoreCounterexamples.

(** ** The batch reporter *)

Section BatchReporter.

Context {Question : Type}.

Lemma insertBy_perm {A : Type} (compare : A -> A -> Z) (x : A) (l : list A) :
  Permutation (insertBy compare x l) (x :: l).
Proof.
  induction l as [|y l IH]; simpl; [reflexivity|].
  destruct (compare x y <=? 0)%Z; [reflexivity|].
  rewrite IH. apply perm_swap.
Qed.

Lemma sortBy_perm {A : Type} (compare : A -> A -> Z) (l : list A) :
  Permutation (sortBy compare l) l.
Proof.
  induction l as [|x l IH]; simpl; [reflexivity|].
  rewrite insertBy_perm. now constructor.
Qed.

Lemma insertBy_descending (x : AnalysisResult) (l : list AnalysisResult) :
  StronglySorted descending l ->
  StronglySorted descending (insertBy byScoreDescending x l).
Proof.
  induction 1 as [|y l S IH F]; simpl.
  - repeat constructor.
  - unfold byScoreDescending at 1.
    destruct (Z.leb_spec (suspicionScore y - suspicionScore x) 0) as [L|L].
    + constructor; [now constructor|].
      constructor; [unfold descending; lia|].
      rewrite Forall_forall in *. intros z Hz. specialize (F z Hz).
      unfold descending in *. lia.
    + constructor; [exact IH|].
      rewrite Forall_forall in *. intros z Hz.
      apply (Permutation_in _ (insertBy_perm byScoreDescending x l)) in Hz.
      destruct Hz as [<-|Hz]; [unfold descending; lia|now apply F].
Qed.

Lemma sortBy_descending (l : list AnalysisResult) :
  StronglySorted descending (sortBy byScoreDescending l).
Proof.
  induction l as [|x l IH]; simpl; [constructor|].
  now apply insertBy_descending.
Qed.

Lemma insertBy_withScore (k : Z) (x : AnalysisResult)
  (l : list AnalysisResult) :
  withScore k (insertBy byScoreDescending x l) = withScore k (x :: l).
Proof.
  unfold withScore. induction l as [|y l IH]; [reflexivity|].
  cbn [insertBy]. unfold byScoreDescending at 1.
  destruct (Z.leb_spec (suspicionScore y - suspicionScore x) 0) as [L|L];
    [reflexivity|].
  cbn [filter] in *. rewrite IH.
  destruct (Z.eqb_spec (suspicionScore y) k);
    destruct (Z.eqb_spec (suspicionScore x) k); try reflexivity.
  lia.
Qed.

Lemma sortBy_withScore (k : Z) (l : list AnalysisResult) :
  withScore k (sortBy byScoreDescending l) = withScore k l.
Proof.
  induction l as [|x l IH]; [reflexivity|].
  cbn [sortBy fold_right]. fold (sortBy byScoreDescending l).
  rewrite insertBy_withScore. unfold withScore in *. cbn [filter].
  now rewrite IH.
Qed.

Lemma filter_length_perm {A : Type} (f : A -> bool) (l l' : list A) :
  Permutation l l' ->
  List.length (filter f l) = List.length (filter f l').
Proof.
  induction 1 as [|x l l' P IH|x y l|l1 l2 l3 P1 IH1 P2 IH2];
    simpl; try congruence.
  - destruct (f x); simpl; congruence.
  - destruct (f x), (f y); reflexivity.
Qed.

(** C9: the reports of the batch report are the analyses of the
    submissions, sorted by descending suspicionScore (every report has a
    score at least that of each report after it), reports of equal score
    keeping their input order; totalSubmissions is the length of the
    collection and flaggedSubmissions the number of reports with
    isSuspicious true. *)
Theorem generateBatchReport_sorted (allSubmissions : list Submission)
  (questions : list Question) :
  let analyses :=
    map (fun submission =>
           analyzeSubmission submission allSubmissions questions)
        allSubmissions in
  let report := generateBatchReport allSubmissions questions in
  StronglySorted descending (reports report)
  /\ Permutation (reports report) analyses
  /\ (forall k : Z, withScore k (reports report) = withScore k analyses)
  /\ totalSubmissions report = List.length allSubmissions
  /\ List.length (reports report) = List.length allSubmissions
  /\ flaggedSubmissions report
     = List.length (filter isSuspicious (reports report))
  /\ flaggedSubmissions report
     = List.length (filter isSuspicious analyses).
Proof.
  cbv zeta. unfold generateBatchReport.
  cbn [reports totalSubmissions flaggedSubmissions].
  set (analyses := map _ allSubmissions).
  pose proof (sortBy_perm byScoreDescending analyses) as P.
  split; [apply sortBy_descending|].
  split; [exact P|].
  split; [intro k; apply sortBy_withScore|].
  split; [reflexivity|].
  split; [rewrite (Permutation_length P); apply length_map|].
  split; [reflexivity|].
  apply filter_length_perm, P.
Qed.

End BatchReporter.

Section Witnesses.

Local Open Scope Q_scope.
Import Examples.

(** The hypotheses of the theorem on identical answers are met by two
    participants who both answered "paris" and "4". *)
Lemma identical_answers_flagged_witness :
  (similarityTo parisA parisB == 1 /\ similarityTo parisB parisA == 1)
  /\ (exists m, In m (fst (detectAnswerSimilarity parisA [parisA; parisB]))
                /\ matchId m = participantId parisB
                /\ similarityScore m = 100%Z).
Proof.
  destruct (identical_answers_flagged (Question := unit) parisA parisB
              ["paris"; "4"]%string [parisA; parisB] [parisA; parisB]
              oneQuestion) as [E [_ [[M _] _]]].
  - discriminate.
  - reflexivity.
  - reflexivity.
  - repeat constructor.
  - reflexivity.
  - simpl. auto.
  - simpl. auto.
  - split; [exact E|exact M].
Defined.

End Witnesses.

(** * Further properties of the detector *)

(** ** Normalization *)

Section Normalization.

Lemma lowerChar_idempotent (c : ascii) :
  JsString.lowerChar (JsString.lowerChar c) = JsString.lowerChar c.
Proof.
  destruct c as [b0 b1 b2 b3 b4 b5 b6 b7].
  destruct b0, b1, b2, b3, b4, b5, b6, b7; reflexivity.
Qed.

Lemma isSpace_lowerChar (c : ascii) :
  JsString.isSpace (JsString.lowerChar c) = JsString.isSpace c.
Proof.
  destruct c as [b0 b1 b2 b3 b4 b5 b6 b7].
  destruct b0, b1, b2, b3, b4, b5, b6, b7; reflexivity.
Qed.

Lemma chars_ofChars (l : list ascii) : JsString.chars (JsString.ofChars l) = l.
Proof. apply list_ascii_of_string_of_list_ascii. Qed.

Lemma ofChars_chars (s : string) : JsString.ofChars (JsString.chars s) = s.
Proof. apply string_of_list_ascii_of_string. Qed.

Lemma toLowerCase_idempotent (s : string) :
  JsString.toLowerCase (JsString.toLowerCase s) = JsString.toLowerCase s.
Proof.
  unfold JsString.toLowerCase. rewrite chars_ofChars, map_map.
  f_equal. apply map_ext, lowerChar_idempotent.
Qed.

Lemma dropSpaces_idempotent (l : list ascii) :
  JsString.dropSpaces (JsString.dropSpaces l) = JsString.dropSpaces l.
Proof.
  induction l as [|c l IH]; [reflexivity|]. simpl.
  destruct (JsString.isSpace c) eqn:E; [exact IH|]. simpl. now rewrite E.
Qed.

Lemma dropSpaces_snoc (l : list ascii) (c : ascii) :
  JsString.isSpace c = false ->
  JsString.dropSpaces (l ++ [c]) = JsString.dropSpaces l ++ [c].
Proof.
  intro H. induction l as [|d l IH]; simpl.
  - now rewrite H.
  - destruct (JsString.isSpace d); [exact IH|reflexivity].
Qed.

(** Once the leading spaces are gone, dropping the trailing ones brings
    no leading space back. *)
Lemma dropSpaces_trimmed (l : list ascii) :
  let t := rev (JsString.dropSpaces (rev (JsString.dropSpaces l))) in
  JsString.dropSpaces t = t.
Proof.
  cbv zeta. destruct (JsString.dropSpaces l) as [|c m] eqn:E; [reflexivity|].
  assert (N : JsString.isSpace c = false).
  { clear - E. induction l as [|d l IH]; [discriminate|]. simpl in E.
    destruct (JsString.isSpace d) eqn:F; [auto|]. now inversion E; subst. }
  cbn [rev]. rewrite (dropSpaces_snoc _ _ N), rev_unit. simpl. now rewrite N.
Qed.

Lemma trim_idempotent (s : string) :
  JsString.trim (JsString.trim s) = JsString.trim s.
Proof.
  unfold JsString.trim. rewrite chars_ofChars. f_equal.
  rewrite (dropSpaces_trimmed (JsString.chars s)), rev_involutive.
  now rewrite dropSpaces_idempotent.
Qed.

Lemma dropSpaces_map_lower (l : list ascii) :
  JsString.dropSpaces (map JsString.lowerChar l)
  = map JsString.lowerChar (JsString.dropSpaces l).
Proof.
  induction l as [|c l IH]; [reflexivity|]. simpl.
  rewrite isSpace_lowerChar. destruct (JsString.isSpace c); [exact IH|].
  reflexivity.
Qed.

Lemma toLowerCase_trim (s : string) :
  JsString.toLowerCase (JsString.trim s)
  = JsString.trim (JsString.toLowerCase s).
Proof.
  unfold JsString.toLowerCase, JsString.trim. rewrite !chars_ofChars.
  f_equal.
  now rewrite dropSpaces_map_lower, <- map_rev, dropSpaces_map_lower, map_rev.
Qed.

Lemma normalizeAnswer_idem (a : Answer) :
  normalizeAnswer (normalizeAnswer a) = normalizeAnswer a.
Proof.
  destruct a; try reflexivity. cbn [normalizeAnswer]. f_equal.
  now rewrite toLowerCase_trim, toLowerCase_idempotent, trim_idempotent.
Qed.

Lemma similarityStep_normalized (acc : Q * nat) (x y : Answer) :
  similarityStep acc (normalizeAnswer x, y) = similarityStep acc (x, y)
  /\ similarityStep acc (x, normalizeAnswer y) = similarityStep acc (x, y).
Proof.
  unfold similarityStep. cbn [fst snd]. now rewrite !normalizeAnswer_idem.
Qed.

Lemma similarityLoop_normalized_l (a1 a2 : list Answer) (acc : Q * nat) :
  fold_left similarityStep (combine (map normalizeAnswer a1) a2) acc
  = fold_left similarityStep (combine a1 a2) acc.
Proof.
  revert a2 acc; induction a1 as [|x a1 IH]; intros [|y a2] acc;
    try reflexivity.
  cbn [map combine fold_left].
  now rewrite (proj1 (similarityStep_normalized acc x y)), IH.
Qed.

Lemma similarityLoop_normalized_r (a1 a2 : list Answer) (acc : Q * nat) :
  fold_left similarityStep (combine a1 (map normalizeAnswer a2)) acc
  = fold_left similarityStep (combine a1 a2) acc.
Proof.
  revert a2 acc; induction a1 as [|x a1 IH]; intros [|y a2] acc;
    try reflexivity.
  cbn [map combine fold_left].
  now rewrite (proj2 (similarityStep_normalized acc x y)), IH.
Qed.

(** X1: normalizing an answer twice is the same as normalizing it once,
    and a normalized string has no white space at either end. *)
Theorem normalizeAnswer_idempotent (answer : Answer) :
  normalizeAnswer (normalizeAnswer answer) = normalizeAnswer answer
  /\ match normalizeAnswer answer with
     | AStr s =>
         JsString.dropSpaces (JsString.chars s) = JsString.chars s
         /\ JsString.dropSpaces (rev (JsString.chars s))
            = rev (JsString.chars s)
     | _ => True
     end.
Proof.
  split; [apply normalizeAnswer_idem|].
  destruct answer; cbn [normalizeAnswer]; try exact I.
  unfold JsString.trim. rewrite chars_ofChars. split.
  - apply dropSpaces_trimmed.
  - rewrite rev_involutive. apply dropSpaces_idempotent.
Qed.

(** X2: answers are compared up to case and surrounding white space: the
    similarity of two answer sequences does not change when the answers of
    either side are replaced by their normalized forms. *)
Theorem calculateAnswerSimilarity_normalized (answers1 answers2 : list Answer) :
  calculateAnswerSimilarity (Some (map normalizeAnswer answers1))
                            (Some answers2)
  = calculateAnswerSimilarity (Some answers1) (Some answers2)
  /\ calculateAnswerSimilarity (Some answers1)
                               (Some (map normalizeAnswer answers2))
     = calculateAnswerSimilarity (Some answers1) (Some answers2).
Proof.
  unfold calculateAnswerSimilarity.
  rewrite !length_map, similarityLoop_normalized_l,
    similarityLoop_normalized_r.
  split; reflexivity.
Qed.

End Normalization.

(** ** Text similarity measures *)

Section TextMeasures.

Local Open Scope Q_scope.

Lemma same_elements_size (s1 s2 : list string) :
  NoDup s1 -> NoDup s2 -> (forall x, In x s1 <-> In x s2) ->
  JsSet.size s1 = JsSet.size s2.
Proof.
  intros N1 N2 H. unfold JsSet.size.
  apply Permutation_length, NoDup_Permutation; assumption.
Qed.

Lemma intersection_size_comm (s1 s2 : list string) :
  JsSet.size (JsSet.ofList (filter (JsSet.has s2) s1))
  = JsSet.size (JsSet.ofList (filter (JsSet.has s1) s2)).
Proof.
  apply same_elements_size; try apply ofList_NoDup.
  intro x. rewrite !ofList_In, !filter_In, !has_In. tauto.
Qed.

Lemma union_size_comm (s1 s2 : list string) :
  JsSet.size (JsSet.ofList (s1 ++ s2)) = JsSet.size (JsSet.ofList (s2 ++ s1)).
Proof.
  apply same_elements_size; try apply ofList_NoDup.
  intro x. rewrite !ofList_In, !in_app_iff. tauto.
Qed.

Lemma jaccardSimilarity_sym (a b : string) :
  jaccardSimilarity a b = jaccardSimilarity b a.
Proof.
  unfold jaccardSimilarity. cbv zeta.
  now rewrite intersection_size_comm, union_size_comm.
Qed.

(** X3: the Jaccard similarity lies between 0 and 1, does not depend on the
    order of its two arguments, and ignores case. *)
Theorem jaccardSimilarity_properties (a b : string) :
  (0 <= jaccardSimilarity a b /\ jaccardSimilarity a b <= 1)
  /\ jaccardSimilarity a b = jaccardSimilarity b a
  /\ jaccardSimilarity (JsString.toLowerCase a) b = jaccardSimilarity a b.
Proof.
  split; [apply jaccardSimilarity_bounds|].
  split; [apply jaccardSimilarity_sym|].
  unfold jaccardSimilarity. now rewrite toLowerCase_idempotent.
Qed.

Lemma editDist_zero (p q : list ascii) : editDist p q = 0%nat <-> p = q.
Proof.
  split; [|intros ->; apply editDist_refl].
  revert q; induction p as [|a p IHp]; intro q.
  - simpl. destruct q; [reflexivity|discriminate].
  - induction q as [|b q IHq]; [discriminate|].
    rewrite editDist_cons.
    destruct (Ascii.eqb_spec a b) as [->|N].
    + intro H. f_equal. now apply IHp.
    + intro H. exfalso. lia.
Qed.

Lemma editDist_length (p q : list ascii) :
  (List.length p <= List.length q + editDist p q)%nat.
Proof.
  revert q; induction p as [|a p IHp]; intro q.
  - simpl. lia.
  - induction q as [|b q IHq].
    + simpl. lia.
    + rewrite editDist_cons.
      pose proof (IHp q). pose proof (IHp (b :: q)).
      cbn [List.length] in *.
      destruct (Ascii.eqb a b); lia.
Qed.

Lemma chars_inj (a b : string) : JsString.chars a = JsString.chars b -> a = b.
Proof.
  intro H. rewrite <- (ofChars_chars a), <- (ofChars_chars b). now rewrite H.
Qed.

Lemma levenshteinDistance_zero (a b : string) :
  levenshteinDistance a b = 0%nat <-> a = b.
Proof.
  rewrite levenshteinDistance_editDist, editDist_zero. split.
  - intro H. apply chars_inj.
    rewrite <- (rev_involutive (JsString.chars a)), H.
    apply rev_involutive.
  - now intros ->.
Qed.

(** X4: the Levenshtein distance is 0 exactly when the two strings are
    equal, it is never more than the length of the longer string and never
    less than the difference of the two lengths. *)
Theorem levenshteinDistance_properties (a b : string) :
  (levenshteinDistance a b = 0%nat <-> a = b)
  /\ (levenshteinDistance a b
      <= Nat.max (JsString.length a) (JsString.length b))%nat
  /\ (JsString.length a <= JsString.length b + levenshteinDistance a b)%nat
  /\ (JsString.length b <= JsString.length a + levenshteinDistance a b)%nat.
Proof.
  split; [apply levenshteinDistance_zero|].
  split; [apply levenshteinDistance_le_max|].
  rewrite levenshteinDistance_editDist. unfold JsString.length.
  rewrite <- (length_rev (JsString.chars a)).
  rewrite <- (length_rev (JsString.chars b)).
  split; [apply editDist_length|].
  rewrite editDist_sym. apply editDist_length.
Qed.

(** X5: the Levenshtein similarity lies between 0 and 1 and is 1 exactly
    when the two strings are equal. *)
Theorem levenshteinSimilarity_properties (a b : string) :
  (0 <= levenshteinSimilarity a b /\ levenshteinSimilarity a b <= 1)
  /\ (levenshteinSimilarity a b == 1 <-> a = b).
Proof.
  split; [apply levenshteinSimilarity_bounds|].
  split; [|intros ->; apply levenshteinSimilarity_self].
  unfold levenshteinSimilarity. cbv zeta.
  set (m := Nat.max (JsString.length a) (JsString.length b)).
  destruct (Nat.eqb_spec m 0) as [E|E].
  - intros _.
    assert (Ha : JsString.length a = 0%nat) by lia.
    assert (Hb : JsString.length b = 0%nat) by lia.
    apply length_zero_empty in Ha, Hb. congruence.
  - intro H. apply levenshteinDistance_zero.
    destruct (levenshteinDistance a b) as [|d] eqn:D; [reflexivity|].
    exfalso.
    assert (P : 0 < ofNat (S d) / ofNat m).
    { apply Qlt_shift_div_l; [apply ofNat_pos; lia|].
      rewrite Qmult_0_l. apply ofNat_pos. lia. }
    lra.
Qed.

End TextMeasures.

(** ** Symmetry of the comparison *)

Section Symmetry.

Local Open Scope Q_scope.

Lemma sameJson_sym : forall a b : Answer, sameJson a b = sameJson b a.
Proof.
  fix IH 1. intros a b.
  destruct a as [|x|x|x|xs|xs]; destruct b as [|y|y|y|ys|ys];
    try reflexivity; cbn [sameJson].
  - now destruct x, y.
  - apply Qeq_bool_comm.
  - apply String.eqb_sym.
  - revert ys. induction xs as [|x xs IHxs]; intros [|y ys]; try reflexivity.
    now rewrite (IH x y), IHxs.
  - revert ys.
    induction xs as [|[k x] xs IHxs]; intros [|[k' y] ys]; try reflexivity.
    now rewrite (IH x y), IHxs, (String.eqb_sym k k').
Qed.

Lemma positionScore_sym (a b : Answer) : positionScore a b = positionScore b a.
Proof.
  unfold positionScore.
  destruct a as [|x|x|s1|xs|xs]; destruct b as [|y|y|s2|ys|ys];
    try reflexivity; try (now rewrite sameJson_sym).
  rewrite (orb_comm (20 <? JsString.length s1)%nat).
  rewrite (jaccardSimilarity_sym s1 s2), (String.eqb_sym s1 s2).
  assert (L : levenshteinSimilarity s1 s2 = levenshteinSimilarity s2 s1).
  { unfold levenshteinSimilarity.
    now rewrite levenshteinDistance_sym, Nat.max_comm. }
  now rewrite L.
Qed.

Lemma similarityStep_sym (acc : Q * nat) (x y : Answer) :
  similarityStep acc (x, y) = similarityStep acc (y, x).
Proof.
  unfold similarityStep. cbn [fst snd].
  now rewrite andb_comm, positionScore_sym.
Qed.

Lemma similarityLoop_sym (a1 a2 : list Answer) (acc : Q * nat) :
  fold_left similarityStep (combine a1 a2) acc
  = fold_left similarityStep (combine a2 a1) acc.
Proof.
  revert a2 acc; induction a1 as [|x a1 IH]; intros [|y a2] acc;
    try reflexivity.
  cbn [combine fold_left]. now rewrite similarityStep_sym, IH.
Qed.

Lemma calculateAnswerSimilarity_sym (a1 a2 : option (list Answer)) :
  calculateAnswerSimilarity a1 a2 = calculateAnswerSimilarity a2 a1.
Proof.
  unfold calculateAnswerSimilarity.
  destruct a1 as [l1|], a2 as [l2|]; try reflexivity.
  now rewrite Nat.eqb_sym, similarityLoop_sym.
Qed.

Lemma similar_has_answers (a b : Submission) :
  similarityThreshold <= similarityTo a b -> answers a <> None.
Proof.
  unfold similarityTo. intros H E. rewrite E in H.
  rewrite calculateAnswerSimilarity_absent_l in H.
  revert H. apply Qlt_not_le. reflexivity.
Qed.

Lemma suspiciousOf_sym (a b : Submission) :
  suspiciousOf a b = true -> suspiciousOf b a = true.
Proof.
  unfold suspiciousOf, compared. intro H.
  apply andb_true_iff in H. destruct H as [H S].
  apply andb_true_iff in H. destruct H as [D _].
  pose proof S as S'. apply Qge_bool_iff, similar_has_answers in S'.
  unfold similarityTo in *. rewrite calculateAnswerSimilarity_sym, S.
  rewrite String.eqb_sym, D.
  destruct (answers a); [reflexivity|congruence].
Qed.

(** X6: the pairwise similarity does not depend on the order of the two
    answer sequences. *)
Theorem calculateAnswerSimilarity_symmetric
  (answers1 answers2 : option (list Answer)) :
  calculateAnswerSimilarity answers1 answers2
  = calculateAnswerSimilarity answers2 answers1.
Proof. apply calculateAnswerSimilarity_sym. Qed.

Lemma getMatchingAnswers_sym (a1 a2 : list Answer) :
  List.length a1 = List.length a2 ->
  getMatchingAnswers a1 a2 = getMatchingAnswers a2 a1.
Proof.
  intro L. unfold getMatchingAnswers. rewrite L.
  apply filter_ext. intro i. cbv zeta.
  now rewrite sameJson_sym, (andb_comm (truthy (normalizeAnswer (at_ a1 i)))).
Qed.

Lemma suspiciousOf_sameLength (a b : Submission) :
  suspiciousOf a b = true ->
  List.length (answersOr (answers a)) = List.length (answersOr (answers b)).
Proof.
  unfold suspiciousOf. intro H. apply andb_true_iff in H. destruct H as [_ S].
  apply Qge_bool_iff in S. unfold similarityTo, calculateAnswerSimilarity in S.
  destruct (answers a) as [l1|], (answers b) as [l2|];
    try (exfalso; revert S; apply Qlt_not_le; reflexivity).
  destruct (Nat.eqb_spec (List.length l1) (List.length l2)) as [E|E];
    [exact E|].
  exfalso. revert S. apply Qlt_not_le. reflexivity.
Qed.

(** X7: suspicion is mutual: when [b] is compared with [a] and reaches the
    threshold, analyzing [a] against a collection that contains [b] lists
    [b], analyzing [b] against a collection that contains [a] lists [a],
    and the two entries carry the same similarity score and the same
    matching positions. *)
Theorem suspicion_is_mutual (a b : Submission) (withB withA : list Submission) :
  In b withB -> In a withA -> suspiciousOf a b = true ->
  In (matchOf a b) (fst (detectAnswerSimilarity a withB))
  /\ In (matchOf b a) (fst (detectAnswerSimilarity b withA))
  /\ similarityScore (matchOf b a) = similarityScore (matchOf a b)
  /\ matchingAnswers (matchOf b a) = matchingAnswers (matchOf a b).
Proof.
  intros Ib Ia S. split; [now apply suspicious_maxScore|].
  split; [apply suspicious_maxScore; [exact Ia|now apply suspiciousOf_sym]|].
  split.
  - cbn [matchOf similarityScore]. unfold similarityTo.
    now rewrite calculateAnswerSimilarity_sym.
  - cbn [matchOf matchingAnswers]. apply getMatchingAnswers_sym.
    symmetry. now apply suspiciousOf_sameLength.
Qed.

End Symmetry.

(** ** The suspicious list *)

Section SuspiciousList.

Local Open Scope Q_scope.

Lemma suspiciousOf_compared (a b : Submission) :
  suspiciousOf a b = true -> compared a b = true.
Proof. unfold suspiciousOf. intro H. now apply andb_true_iff in H. Qed.

Lemma filter_suspicious_compared (a : Submission) (l : list Submission) :
  filter (suspiciousOf a) (filter (compared a) l) = filter (suspiciousOf a) l.
Proof.
  induction l as [|o l IH]; [reflexivity|]. cbn [filter].
  destruct (compared a o) eqn:C; cbn [filter].
  - now rewrite IH.
  - rewrite IH. unfold suspiciousOf. now rewrite C.
Qed.

(** X8: the submissions that carry the participantId of the analyzed
    submission (the submission itself, when the collection contains it) and
    those without answers have no influence on the similarity analysis. *)
Theorem detectAnswerSimilarity_ignores_skipped (submission : Submission)
  (allSubmissions : list Submission) :
  detectAnswerSimilarity submission allSubmissions
  = detectAnswerSimilarity submission
      (filter (fun other =>
                 negb (String.eqb (participantId other)
                                  (participantId submission))
                 && match answers other with
                    | Some _ => true
                    | None => false
                    end)
              allSubmissions).
Proof.
  rewrite !detectAnswerSimilarity_filter.
  pose proof (filter_suspicious_compared submission allSubmissions) as F.
  unfold compared in F at 1. now rewrite F.
Qed.

Lemma mathRound_threshold (x : Q) :
  85 <= x -> x <= 100 -> (85 <= mathRound x <= 100)%Z.
Proof.
  intros L U. unfold mathRound. split.
  - change 85%Z with (Qfloor (85 + (1 # 2))).
    apply Qfloor_resp_le. now apply Qplus_le_l.
  - change 100%Z with (Qfloor (100 + (1 # 2))).
    apply Qfloor_resp_le. now apply Qplus_le_l.
Qed.

(** X9: every entry of the suspicious list stems from a submission of the
    collection other than the analyzed one, has a similarity score between
    85 and 100, and reports only positions of the answer sequence; the
    list has no more entries than the collection has submissions. *)
Theorem suspicious_entries (submission : Submission)
  (allSubmissions : list Submission) :
  let suspicious := fst (detectAnswerSimilarity submission allSubmissions) in
  (List.length suspicious <= List.length allSubmissions)%nat
  /\ forall m, In m suspicious ->
       matchId m <> participantId submission
       /\ (exists other, In other allSubmissions
                         /\ matchId m = participantId other
                         /\ matchName m = participantName other
                         /\ answers other <> None)
       /\ (85 <= similarityScore m <= 100)%Z
       /\ Forall (fun i =>
                    (i < List.length (answersOr (answers submission)))%nat)
                 (matchingAnswers m).
Proof.
  cbv zeta. rewrite detectAnswerSimilarity_filter. cbn [fst]. split.
  - rewrite length_map. apply filter_length_le.
  - intros m H. apply in_map_iff in H. destruct H as [o [<- H]].
    apply filter_In in H. destruct H as [I S].
    pose proof (suspiciousOf_compared _ _ S) as C.
    unfold compared in C. apply andb_true_iff in C. destruct C as [D A].
    split; [|split; [|split]].
    + cbn [matchOf matchId]. intro E. rewrite E, String.eqb_refl in D.
      discriminate.
    + exists o. repeat split; auto. intro E. rewrite E in A. discriminate.
    + cbn [matchOf similarityScore]. apply mathRound_threshold.
      * apply (suspiciousOf_score submission o S).
      * apply score_bounds.
    + cbn [matchOf matchingAnswers]. apply Forall_forall. intros i Hi.
      unfold getMatchingAnswers in Hi. apply filter_In in Hi.
      destruct Hi as [Hi _]. apply in_seq in Hi. lia.
Qed.

(** X10: a submission without answers, or one compared only with
    submissions without answers, gets an empty suspicious list and an
    answerSimilarity score of 0. *)
Theorem detectAnswerSimilarity_without_answers (submission : Submission)
  (allSubmissions : list Submission) :
  answers submission = None
  \/ (forall other, In other allSubmissions -> answers other = None) ->
  detectAnswerSimilarity submission allSubmissions = ([], 0).
Proof.
  intro H. rewrite detectAnswerSimilarity_filter.
  assert (F : filter (suspiciousOf submission) allSubmissions = []).
  { induction allSubmissions as [|o l IH]; [reflexivity|]. cbn [filter].
    assert (S : suspiciousOf submission o = false).
    { unfold suspiciousOf, compared, similarityTo.
      destruct H as [H|H].
      - rewrite H, calculateAnswerSimilarity_absent_l.
        now rewrite andb_false_r.
      - rewrite (H o (or_introl eq_refl)). now rewrite andb_false_r. }
    rewrite S. apply IH. destruct H as [H|H]; [now left|right].
    intros other I. apply H. now right. }
  now rewrite F.
Qed.

End SuspiciousList.

(** ** Flags and scores of the anomaly analyzers *)

Section AnomalyAccounting.

Local Open Scope Q_scope.

Lemma totalPoints_snoc (l : list Issue) (i : Issue) :
  totalPoints (l ++ [i]) = totalPoints l + points i.
Proof. unfold totalPoints. now rewrite fold_left_app. Qed.

Lemma flagIf_accounted (cond : bool) (issue : Issue) (st : Anomalies) :
  accounted st -> accounted (flagIf cond issue (points issue) st).
Proof.
  unfold accounted, flagIf. intro H. destruct cond; [|exact H].
  cbn [fst snd]. now rewrite totalPoints_snoc, H.
Qed.

Ltac accounted_tac :=
  repeat (cbv zeta;
          match goal with
          | |- accounted (flagIf _ _ _ _) => apply flagIf_accounted
          | |- accounted (if ?c then _ else _) => destruct c
          | |- accounted (match ?x with Some _ => _ | None => _ end) =>
              destruct x
          end);
  try assumption.

Lemma checkTypingSpeed_accounted (d : TypingData) (st : Anomalies) :
  accounted st -> accounted (checkTypingSpeed d st).
Proof. intro H. unfold checkTypingSpeed. accounted_tac. Qed.

Lemma checkPausePatterns_accounted (d : TypingData) (st : Anomalies) :
  accounted st -> accounted (checkPausePatterns d st).
Proof. intro H. unfold checkPausePatterns. accounted_tac. Qed.

Lemma checkAnswerChanges_accounted (d : TypingData) (st : Anomalies) :
  accounted st -> accounted (checkAnswerChanges d st).
Proof. intro H. unfold checkAnswerChanges. accounted_tac. Qed.

Lemma checkCompletionTime_accounted (s : Submission) (n : nat)
  (st : Anomalies) :
  accounted st -> accounted (checkCompletionTime s n st).
Proof. intro H. unfold checkCompletionTime. accounted_tac. Qed.

Lemma checkPeers_accounted (s : Submission) (l : list Submission)
  (st : Anomalies) :
  accounted st -> accounted (checkPeers s l st).
Proof. intro H. unfold checkPeers. accounted_tac. Qed.

Lemma checkQuestionTimes_accounted (s : Submission) (st : Anomalies) :
  accounted st -> accounted (checkQuestionTimes s st).
Proof. intro H. unfold checkQuestionTimes. accounted_tac. Qed.

Lemma checkNearby_accounted (s : Submission) (l : list Submission)
  (st : Anomalies) :
  accounted st -> accounted (checkNearby s l st).
Proof. intro H. unfold checkNearby. destruct (timestamp s); accounted_tac. Qed.

Lemma points_min (i : Issue) : 15 <= points i.
Proof. destruct i; discriminate. Qed.

Lemma pointsLoop_init (l : list Issue) (acc : Q) :
  acc <= fold_left (fun score issue => score + points issue) l acc.
Proof.
  revert acc; induction l as [|i l IH]; intro acc; simpl; [apply Qle_refl|].
  eapply Qle_trans; [|apply IH].
  pose proof (points_min i). lra.
Qed.

Lemma totalPoints_nonempty (l : list Issue) : l <> [] -> 15 <= totalPoints l.
Proof.
  destruct l as [|i l]; [congruence|]. intros _. unfold totalPoints. simpl.
  eapply Qle_trans; [|apply pointsLoop_init].
  pose proof (points_min i). lra.
Qed.

Lemma finish_accounted (st : Anomalies) :
  accounted st ->
  snd (finish st) = mathMin (totalPoints (fst (finish st))) 100
  /\ (snd (finish st) == 0 <-> fst (finish st) = [])
  /\ (fst (finish st) <> [] -> 15 <= snd (finish st)).
Proof.
  unfold accounted, finish. cbn [fst snd]. intro H. rewrite H.
  split; [reflexivity|].
  assert (L : fst st <> [] -> 15 <= mathMin (totalPoints (fst st)) 100).
  { intro N. apply totalPoints_nonempty in N. unfold mathMin.
    destruct (Qle_bool (totalPoints (fst st)) 100); [exact N|discriminate]. }
  split; [|exact L].
  split.
  - intro E. destruct (fst st) as [|i l]; [reflexivity|].
    exfalso. assert (N : i :: l <> []) by discriminate.
    apply L in N. rewrite E in N. revert N. apply Qlt_not_le. reflexivity.
  - intros ->. reflexivity.
Qed.

(** X11: the anomaly score of the typing analyzer is the sum of the points
    of the flags it raised, capped at 100 (slow typing 30, fast typing 40,
    consistent typing 35, few pauses 25, long pauses 20, no revisions 30,
    excessive revisions 15); it is 0 exactly when no flag was raised and at
    least 15 otherwise. *)
Theorem analyzeTypingPattern_score (typingData : TypingData) :
  let flags := fst (analyzeTypingPattern typingData) in
  let anomalyScore := snd (analyzeTypingPattern typingData) in
  anomalyScore = mathMin (totalPoints flags) 100
  /\ (anomalyScore == 0 <-> flags = [])
  /\ (flags <> [] -> 15 <= anomalyScore).
Proof.
  cbv zeta. unfold analyzeTypingPattern. apply finish_accounted.
  apply checkAnswerChanges_accounted, checkPausePatterns_accounted,
    checkTypingSpeed_accounted.
  reflexivity.
Qed.

(** X12: the anomaly score of the time analyzer is the sum of the points of
    the flags it raised, capped at 100 (fast completion 40, faster than
    peers 30, slow completion 15, consistent timing 25, instant answers 35,
    simultaneous submissions 20); it is 0 exactly when no flag was raised
    and at least 15 otherwise. *)
Theorem detectTimeAnomalies_score {Question : Type} (submission : Submission)
  (allSubmissions : list Submission) (questions : list Question) :
  let flags := fst (detectTimeAnomalies submission allSubmissions questions) in
  let anomalyScore :=
    snd (detectTimeAnomalies submission allSubmissions questions) in
  anomalyScore = mathMin (totalPoints flags) 100
  /\ (anomalyScore == 0 <-> flags = [])
  /\ (flags <> [] -> 15 <= anomalyScore).
Proof.
  cbv zeta. unfold detectTimeAnomalies. cbv zeta. apply finish_accounted.
  apply checkNearby_accounted, checkQuestionTimes_accounted,
    checkPeers_accounted, checkCompletionTime_accounted.
  reflexivity.
Qed.

End AnomalyAccounting.

Section AnomalyFlags.

Local Open Scope Q_scope.

(** The flags one issue contributes. *)
Local Abbreviation one b issue := (if (b : bool) then [issue : Issue] else []).

Lemma flagIf_flags (cond : bool) (issue : Issue) (p : Q) (st : Anomalies) :
  fst (flagIf cond issue p st) = fst st ++ one cond issue.
Proof. unfold flagIf. destruct cond; cbn [fst]; now rewrite ?app_nil_r. Qed.

Lemma checkTypingSpeed_flags (d : TypingData) (st : Anomalies) :
  exists slow fast consistent : bool,
    fst (checkTypingSpeed d st)
    = fst st ++ (if slow then [ExtremelySlowTyping]
                 else one fast UnrealisticallyFastTyping)
             ++ one consistent SuspiciouslyConsistentTyping
    /\ slow && consistent = false.
Proof.
  unfold checkTypingSpeed.
  destruct (0 <? List.length _)%nat;
    [|exists false, false, false; now rewrite !app_nil_r].
  cbv zeta.
  set (avgSpeed := sum _ / ofNat _).
  set (consistent := sqrtLt _ _ && Qlt_bool 100 avgSpeed).
  destruct (Qlt_bool avgSpeed typingSpeedMin) eqn:S.
  - exists true, false, consistent. rewrite !flagIf_flags.
    split; [now rewrite app_assoc|].
    destruct consistent eqn:C; [|reflexivity]. exfalso.
    apply Qlt_bool_iff in S. unfold typingSpeedMin in S.
    apply andb_true_iff in C. destruct C as [_ C]. apply Qlt_bool_iff in C.
    clearbody avgSpeed. lra.
  - exists false, (Qlt_bool typingSpeedMax avgSpeed), consistent.
    rewrite !flagIf_flags. split; [now rewrite app_assoc|reflexivity].
Qed.

Lemma checkPausePatterns_flags (d : TypingData) (st : Anomalies) :
  exists few long : bool,
    fst (checkPausePatterns d st)
    = fst st ++ one few VeryFewThinkingPauses
             ++ one long UnusuallyLongPauses.
Proof.
  unfold checkPausePatterns. destruct (pausePatterns d) as [p|].
  - cbv zeta. do 2 eexists. rewrite !flagIf_flags, <- app_assoc. reflexivity.
  - exists false, false. now rewrite !app_nil_r.
Qed.

Lemma checkAnswerChanges_flags (d : TypingData) (st : Anomalies) :
  exists none excessive : bool,
    fst (checkAnswerChanges d st)
    = fst st ++ one none NoAnswerRevisions
             ++ one excessive ExcessiveAnswerRevisions.
Proof.
  unfold checkAnswerChanges. destruct (answerChanges d) as [c|].
  - cbv zeta. do 2 eexists. rewrite !flagIf_flags, <- app_assoc. reflexivity.
  - exists false, false. now rewrite !app_nil_r.
Qed.

(** X13: the typing analyzer raises each of its issues at most once and in
    the order in which it checks them, and it never reports extremely slow
    typing together with unrealistically fast or suspiciously consistent
    typing. *)
Theorem analyzeTypingPattern_flags (typingData : TypingData) :
  let flags := fst (analyzeTypingPattern typingData) in
  selectedFrom typingIssues flags = true
  /\ raised ExtremelySlowTyping flags
     && (raised UnrealisticallyFastTyping flags
         || raised SuspiciouslyConsistentTyping flags) = false.
Proof.
  cbv zeta. unfold analyzeTypingPattern, finish. cbn [fst].
  destruct (checkAnswerChanges_flags typingData
              (checkPausePatterns typingData
                 (checkTypingSpeed typingData ([], 0))))
    as [none [excessive ->]].
  destruct (checkPausePatterns_flags typingData
              (checkTypingSpeed typingData ([], 0))) as [few [long ->]].
  destruct (checkTypingSpeed_flags typingData ([], 0))
    as [slow [fast [consistent [-> E]]]].
  cbn [fst].
  destruct slow, fast, consistent, few, long, none, excessive;
    try discriminate E; split; reflexivity.
Qed.

Lemma checkCompletionTime_flags (s : Submission) (n : nat) (st : Anomalies) :
  exists fast : bool,
    fst (checkCompletionTime s n st)
    = fst st ++ one fast SuspiciouslyFastCompletion.
Proof. unfold checkCompletionTime. eexists. apply flagIf_flags. Qed.

Lemma checkPeers_flags (s : Submission) (l : list Submission)
  (st : Anomalies) :
  exists outlier faster : bool,
    fst (checkPeers s l st)
    = fst st ++ (if outlier
                 then if faster then [FasterThanPeers]
                      else [UnusuallySlowCompletion]
                 else [])
    /\ outlier && negb (3 <=? List.length l)%nat = false.
Proof.
  unfold checkPeers. destruct (3 <=? List.length l)%nat.
  - cbv zeta.
    match goal with
    | |- context [if sqrtLt ?v ?x then _ else _] => destruct (sqrtLt v x)
    end.
    + match goal with
      | |- context [if Qlt_bool ?a ?b then _ else _] =>
          exists true, (Qlt_bool a b); destruct (Qlt_bool a b)
      end; rewrite flagIf_flags; split; reflexivity.
    + exists false, false. now rewrite app_nil_r.
  - exists false, false. now rewrite app_nil_r.
Qed.

Lemma checkQuestionTimes_flags (s : Submission) (st : Anomalies) :
  exists uniform instant : bool,
    fst (checkQuestionTimes s st)
    = fst st ++ one uniform UnnaturallyConsistentTiming
             ++ one instant TooManyInstantAnswers.
Proof.
  unfold checkQuestionTimes.
  destruct (questionTimes s) as [times|];
    [|exists false, false; now rewrite !app_nil_r].
  destruct (0 <? List.length times)%nat;
    [|exists false, false; now rewrite !app_nil_r].
  cbv zeta. do 2 eexists. rewrite !flagIf_flags, <- app_assoc. reflexivity.
Qed.

Lemma checkNearby_flags (s : Submission) (l : list Submission)
  (st : Anomalies) :
  exists nearby : bool,
    fst (checkNearby s l st)
    = fst st ++ one nearby MultipleSubmissionsWithin5Seconds.
Proof.
  unfold checkNearby.
  destruct (timestamp s) as [| |t]; try (exists false; now rewrite app_nil_r).
  destruct (0 <? List.length l)%nat; [|exists false; now rewrite app_nil_r].
  cbv zeta. eexists. apply flagIf_flags.
Qed.

(** X14: the time analyzer raises each of its issues at most once and in
    the order in which it checks them; it never reports a completion both
    faster than the peers and unusually slow, and it reports either only
    when at least three other submissions with a completion time exist. *)
Theorem detectTimeAnomalies_flags {Question : Type} (submission : Submission)
  (allSubmissions : list Submission) (questions : list Question) :
  let flags := fst (detectTimeAnomalies submission allSubmissions questions) in
  selectedFrom timeIssues flags = true
  /\ raised FasterThanPeers flags && raised UnusuallySlowCompletion flags
     = false
  /\ (raised FasterThanPeers flags || raised UnusuallySlowCompletion flags)
     && negb (3 <=? List.length
                      (completedSubmissions submission allSubmissions))%nat
     = false.
Proof.
  cbv zeta. unfold detectTimeAnomalies, finish. cbv zeta. cbn [fst].
  set (completed := completedSubmissions submission allSubmissions).
  set (st1 := checkCompletionTime submission (List.length questions) ([], 0)).
  set (st2 := checkPeers submission completed st1).
  set (st3 := checkQuestionTimes submission st2).
  destruct (checkNearby_flags submission completed st3) as [nearby ->].
  subst st3.
  destruct (checkQuestionTimes_flags submission st2)
    as [uniform [instant ->]].
  subst st2.
  destruct (checkPeers_flags submission completed st1)
    as [outlier [faster [-> E]]].
  subst st1.
  destruct (checkCompletionTime_flags submission (List.length questions)
              ([], 0)) as [fast ->].
  cbn [fst].
  destruct (3 <=? List.length completed)%nat;
    destruct fast, outlier, faster, uniform, instant, nearby;
    try discriminate E; repeat split; reflexivity.
Qed.

End AnomalyFlags.

(** ** Variance *)

Section Variance.

Local Open Scope Q_scope.

Lemma Qsquare_nonneg (y : Q) : 0 <= y * y.
Proof. unfold Qle, Qmult. simpl. nia. Qed.

Lemma squaresLoop_nonneg (avg : Q) (l : list Q) (acc : Q) :
  0 <= acc ->
  0 <= fold_left (fun sum num => sum + (num - avg) * (num - avg)) l acc.
Proof.
  revert acc; induction l as [|x l IH]; intros acc H; simpl; [exact H|].
  apply IH. pose proof (Qsquare_nonneg (x - avg)). lra.
Qed.

Lemma calculateVariance_nonneg (numbers : list Q) :
  0 <= calculateVariance numbers.
Proof.
  unfold calculateVariance.
  destruct (Nat.eqb_spec (List.length numbers) 0) as [E|E]; [discriminate|].
  cbv zeta. apply Qle_shift_div_l; [apply ofNat_pos; lia|].
  rewrite Qmult_0_l. apply squaresLoop_nonneg. discriminate.
Qed.

Lemma sumLoop_constant (c : Q) (l : list Q) (acc : Q) :
  Forall (fun x => x == c) l ->
  fold_left Qplus l acc == acc + ofNat (List.length l) * c.
Proof.
  revert acc; induction l as [|x l IH]; intros acc H; simpl.
  - change (ofNat 0) with 0. lra.
  - inversion H as [|? ? Hx Hl]; subst. rewrite (IH _ Hl).
    rewrite ofNat_S, Hx. lra.
Qed.

Lemma average_constant (c : Q) (l : list Q) :
  l <> [] -> Forall (fun x => x == c) l ->
  sum l / ofNat (List.length l) == c.
Proof.
  intros N H. unfold sum. rewrite (sumLoop_constant c l 0 H).
  assert (P : 0 < ofNat (List.length l)).
  { apply ofNat_pos. destruct l; [congruence|simpl; lia]. }
  field. intro E. rewrite E in P. revert P. apply Qlt_irrefl.
Qed.

Lemma squaresLoop_constant (avg : Q) (l : list Q) (acc : Q) :
  Forall (fun x => x == avg) l ->
  fold_left (fun sum num => sum + (num - avg) * (num - avg)) l acc == acc.
Proof.
  revert acc; induction l as [|x l IH]; intros acc H; simpl; [reflexivity|].
  inversion H as [|? ? Hx Hl]; subst. rewrite (IH _ Hl), Hx. lra.
Qed.

Lemma calculateVariance_constant (c : Q) (numbers : list Q) :
  Forall (fun x => x == c) numbers -> calculateVariance numbers == 0.
Proof.
  intro H. unfold calculateVariance.
  destruct (Nat.eqb_spec (List.length numbers) 0) as [E|E]; [reflexivity|].
  cbv zeta.
  assert (N : numbers <> []) by (intros ->; apply E; reflexivity).
  pose proof (average_constant c numbers N H) as A.
  rewrite squaresLoop_constant.
  - unfold Qdiv. apply Qmult_0_l.
  - apply Forall_forall. intros x Hx. rewrite Forall_forall in H.
    rewrite A. now apply H.
Qed.

(** X15: the variance is never negative (so its square root, against which
    the analyzers compare, exists), and it is 0 for a list whose numbers
    all equal one integer whose sums the code forms exactly. *)
Theorem calculateVariance_properties (numbers : list Q) :
  0 <= calculateVariance numbers
  /\ (forall k : Z, Forall (fun x => x == inject_Z k) numbers ->
                    exactSum k (List.length numbers) ->
                    calculateVariance numbers == 0).
Proof.
  split; [apply calculateVariance_nonneg|].
  intros k F _. now apply (calculateVariance_constant (inject_Z k)).
Qed.

(** X16: a submission that spent the same positive whole number of seconds
    on each of more than five questions (a number whose sums the code forms
    exactly) is flagged for unnaturally consistent question timing, and its
    timeAnomaly score is at least 25. *)
Theorem identical_question_times_flagged {Question : Type}
  (submission : Submission) (allSubmissions : list Submission)
  (questions : list Question) (times : list Q) (k : Z) :
  questionTimes submission = Some times ->
  (5 < List.length times)%nat ->
  Forall (fun t => t == inject_Z k) times ->
  (0 < k)%Z ->
  exactSum k (List.length times) ->
  In UnnaturallyConsistentTiming
     (fst (detectTimeAnomalies submission allSubmissions questions))
  /\ 25 <= snd (detectTimeAnomalies submission allSubmissions questions).
Proof.
  intros T L F Pk _.
  set (c := inject_Z k) in *.
  assert (P : 0 < c) by (unfold c; change 0 with (inject_Z 0);
                         now rewrite <- Zlt_Qlt).
  clearbody c. unfold detectTimeAnomalies. cbv zeta.
  set (completed := completedSubmissions submission allSubmissions).
  set (st := checkPeers submission completed
               (checkCompletionTime submission (List.length questions)
                                    ([], 0))).
  assert (G0 : grows ([], 0) st).
  { eapply grows_trans; [apply checkCompletionTime_grows|].
    apply checkPeers_grows. }
  assert (G : grows (fst st ++ [UnnaturallyConsistentTiming], snd st + 25)
                    (checkQuestionTimes submission st)).
  { unfold checkQuestionTimes. rewrite T.
    destruct (Nat.ltb_spec 0 (List.length times)) as [_|]; [|lia].
    cbv zeta.
    assert (N : times <> []) by (intros ->; simpl in L; lia).
    assert (C : Qlt_bool (calculateVariance times)
                         (sum times / ofNat (List.length times) * (1 # 10))
                && (5 <? List.length times)%nat = true).
    { apply andb_true_iff. split; [|now apply Nat.ltb_lt].
      apply Qlt_bool_iff.
      rewrite (calculateVariance_constant c times F).
      rewrite (average_constant c times N F). lra. }
    rewrite C. apply grows_flagIf. discriminate. }
  pose proof (grows_trans _ _ _ G
                (checkNearby_grows submission completed
                   (checkQuestionTimes submission st))) as [S I].
  cbn [fst snd] in S, I. split.
  - cbn [finish fst]. apply I, in_or_app. right. now left.
  - apply finish_lower; [discriminate|].
    destruct G0 as [G0 _]. cbn [snd] in G0. lra.
Qed.

End Variance.

(** ** What it takes to be suspicious *)

Section Suspicion.

Local Open Scope Q_scope.

Context {Question : Type}.

Lemma analyzeSubmission_scores_bounds (submission : Submission)
  (allSubmissions : list Submission) (questions : list Question) :
  let s := scores (analyzeSubmission submission allSubmissions questions) in
  (0 <= answerSimilarity s /\ answerSimilarity s <= 100)
  /\ (0 <= typingPattern s /\ typingPattern s <= 100)
  /\ (0 <= timeAnomaly s /\ timeAnomaly s <= 100).
Proof.
  cbv zeta. split; [|split].
  - rewrite analyzeSubmission_answerSimilarity. apply maxScore_range.
  - rewrite analyzeSubmission_typingPattern.
    destruct (typingData submission).
    + apply analyzeTypingPattern_range.
    + split; discriminate.
  - rewrite analyzeSubmission_timeAnomaly. apply detectTimeAnomalies_range.
Qed.

Lemma maxScore_zero_iff (submission : Submission)
  (allSubmissions : list Submission) :
  snd (detectAnswerSimilarity submission allSubmissions) == 0
  <-> fst (detectAnswerSimilarity submission allSubmissions) = [].
Proof.
  rewrite detectAnswerSimilarity_filter. cbn [fst snd].
  destruct (filter (suspiciousOf submission) allSubmissions) as [|o l] eqn:F.
  - simpl. split; reflexivity.
  - split; [|discriminate]. intro E. exfalso.
    assert (S : suspiciousOf submission o = true).
    { assert (I : In o (filter (suspiciousOf submission) allSubmissions))
        by (rewrite F; now left).
      apply filter_In in I. apply I. }
    pose proof (suspiciousOf_score submission o S) as B.
    assert (U : pairScore submission o
                <= fold_left mathMax (map (pairScore submission) (o :: l)) 0)
      by (apply maxLoop_upper; now left).
    rewrite E in U. lra.
Qed.

Lemma maxScore_zero_or_threshold (submission : Submission)
  (allSubmissions : list Submission) :
  snd (detectAnswerSimilarity submission allSubmissions) == 0
  \/ 85 <= snd (detectAnswerSimilarity submission allSubmissions).
Proof.
  rewrite detectAnswerSimilarity_filter. cbn [snd].
  match goal with
  | |- context [fold_left mathMax ?l 0] =>
      destruct (maxLoop_attained l 0) as [E|I]
  end.
  - left. now rewrite E.
  - right. apply in_map_iff in I. destruct I as [o [<- I]].
    apply filter_In in I. apply suspiciousOf_score, I.
Qed.

Lemma mathRound_below (x : Q) (n : Z) :
  x < inject_Z n - (1 # 2) -> (mathRound x < n)%Z.
Proof.
  intro H. unfold mathRound.
  pose proof (Qfloor_le (x + (1 # 2))) as L.
  apply Z.lt_nge. intro G. rewrite Zle_Qle in G. lra.
Qed.

(** X17: a submission is marked suspicious only if the similarity analyzer
    found a suspicious match (answerSimilarity at least 85) and the typing
    and time analyzers together contribute at least 9.5 weighted points:
    answer similarity alone, or anomalies alone, never reach the threshold
    of 60. *)
Theorem isSuspicious_requires (submission : Submission)
  (allSubmissions : list Submission) (questions : list Question) :
  let result := analyzeSubmission submission allSubmissions questions in
  isSuspicious result = true ->
  fst (detectAnswerSimilarity submission allSubmissions) <> []
  /\ 85 <= answerSimilarity (scores result)
  /\ 19 # 2 <= typingPattern (scores result) * (3 # 10)
               + timeAnomaly (scores result) * (2 # 10).
Proof.
  cbv zeta. intro S.
  destruct (analyzeSubmission_suspicionScore submission allSubmissions
              questions) as [R [_ I]].
  rewrite I in S. apply Z.leb_le in S.
  destruct (analyzeSubmission_scores_bounds submission allSubmissions
              questions) as [A [T M]].
  set (a := answerSimilarity _) in *.
  set (t := typingPattern _) in *.
  set (m := timeAnomaly _) in *.
  assert (W : 119 # 2 <= weighted a t m).
  { destruct (Qlt_le_dec (weighted a t m) (119 # 2)) as [L|L]; [|exact L].
    exfalso. apply (mathRound_below _ 60) in L.
    rewrite <- R in L. lia. }
  unfold weighted in W.
  assert (Z : a == 0 \/ 85 <= a).
  { subst a. rewrite analyzeSubmission_answerSimilarity.
    apply maxScore_zero_or_threshold. }
  assert (P : 85 <= a) by (destruct Z as [Z|Z]; [lra|exact Z]).
  split; [|split; [exact P|lra]].
  intro E. apply maxScore_zero_iff in E.
  subst a. rewrite analyzeSubmission_answerSimilarity in P. lra.
Qed.

End Suspicion.

(** ** Flags and categories *)

Section FlagCategories.

Local Open Scope Q_scope.

Context {Question : Type}.

Lemma nonempty_nonzero {A : Type} (x : Q) (l : list A) :
  (x == 0 <-> l = []) ->
  (0 <? List.length l)%nat = negb (Qeq_bool x 0).
Proof.
  intro H. destruct l as [|y l]; simpl.
  - replace (Qeq_bool x 0) with true; [reflexivity|].
    symmetry. apply Qeq_bool_iff, H. reflexivity.
  - destruct (Qeq_bool x 0) eqn:E; [|reflexivity].
    apply Qeq_bool_iff, H in E. discriminate.
Qed.

Lemma analyzeTypingPattern_zero_iff (d : TypingData) :
  snd (analyzeTypingPattern d) == 0 <-> fst (analyzeTypingPattern d) = [].
Proof.
  unfold analyzeTypingPattern. apply finish_accounted.
  apply checkAnswerChanges_accounted, checkPausePatterns_accounted,
    checkTypingSpeed_accounted.
  reflexivity.
Qed.

Lemma detectTimeAnomalies_zero_iff (s : Submission) (l : list Submission)
  (questions : list Question) :
  snd (detectTimeAnomalies s l questions) == 0
  <-> fst (detectTimeAnomalies s l questions) = [].
Proof.
  unfold detectTimeAnomalies. cbv zeta. apply finish_accounted.
  apply checkNearby_accounted, checkQuestionTimes_accounted,
    checkPeers_accounted, checkCompletionTime_accounted.
  reflexivity.
Qed.

Variable submission : Submission.
Variable allSubmissions : list Submission.
Variable questions : list Question.

Local Abbreviation result :=
  (analyzeSubmission submission allSubmissions questions).

Lemma flagged_conditions :
  flagged ANSWER_SIMILARITY result
  = (0 <? List.length
            (fst (detectAnswerSimilarity submission allSubmissions)))%nat
  /\ flagged TYPING_PATTERN result
     = match typingData submission with
       | Some d => (0 <? List.length (fst (analyzeTypingPattern d)))%nat
       | None => false
       end
  /\ flagged TIME_ANOMALY result
     = (0 <? List.length
               (fst (detectTimeAnomalies submission allSubmissions
                                         questions)))%nat
  /\ (List.length (flags result) <= 3)%nat
  /\ NoDup (map flagType (flags result)).
Proof.
  unfold flagged, analyzeSubmission, pushIf.
  destruct (typingData submission) as [d|]; cbn [flags];
    repeat match goal with
      | |- context [(0 <? List.length ?l)%nat] =>
          destruct (0 <? List.length l)%nat
      end;
    cbn [app existsb flagType FlagType_eqb orb map List.length];
    repeat split; try reflexivity; try lia;
    repeat constructor; simpl; intuition discriminate.
Qed.

(** X18: for each of the three categories, the result carries a flag of
    the category exactly when the score of the category is not 0; there is
    at most one flag per category. *)
Theorem flags_match_scores :
  (forall t : FlagType,
      flagged t result = negb (Qeq_bool (categoryScore (scores result) t) 0))
  /\ (List.length (flags result) <= 3)%nat
  /\ NoDup (map flagType (flags result)).
Proof.
  destruct flagged_conditions as [A [T [M [L N]]]].
  split; [|split; assumption].
  intros [| |]; cbn [categoryScore].
  - rewrite A, analyzeSubmission_answerSimilarity.
    apply nonempty_nonzero, maxScore_zero_iff.
  - rewrite T, analyzeSubmission_typingPattern.
    destruct (typingData submission) as [d|]; [|reflexivity].
    apply nonempty_nonzero, analyzeTypingPattern_zero_iff.
  - rewrite M, analyzeSubmission_timeAnomaly.
    apply nonempty_nonzero, detectTimeAnomalies_zero_iff.
Qed.

End FlagCategories.

Section SeverityOrder.

Local Open Scope Q_scope.

(** X19: the severity never decreases when the score increases. *)
Theorem getSeverity_monotone (score1 score2 : Q) :
  score1 <= score2 ->
  (severityRank (getSeverity score1) <= severityRank (getSeverity score2))%nat.
Proof.
  intro H. unfold getSeverity.
  repeat match goal with
    | |- context [Qge_bool ?x ?y] =>
        let E := fresh "E" in
        destruct (Qge_bool x y) eqn:E;
        [apply Qge_bool_iff in E|apply Qge_bool_false in E]
    end;
    cbn [severityRank]; try lia; exfalso; lra.
Qed.

End SeverityOrder.

(** ** The plagiarism report endpoints *)

Section ReportEndpoints.

Lemma flaggedEntries_suspicious (results : list StoredResult)
  (e : FlaggedSubmission) :
  In e (flaggedEntries results) -> isSuspicious (flaggedAnalysis e) = true.
Proof.
  unfold flaggedEntries. intro H. apply in_flat_map in H.
  destruct H as [r [_ H]].
  destruct (plagiarismAnalysis r) as [a|]; [|contradiction].
  destruct (isSuspicious a) eqn:S; [|contradiction].
  destruct H as [<-|[]]. exact S.
Qed.

Lemma flaggedEntries_length (results : list StoredResult) :
  List.length (flaggedEntries results)
  = List.length (filter storedSuspicious results).
Proof.
  unfold flaggedEntries, storedSuspicious.
  induction results as [|r l IH]; [reflexivity|].
  cbn [flat_map filter]. rewrite length_app, IH.
  destruct (plagiarismAnalysis r) as [a|]; [|reflexivity].
  destruct (isSuspicious a); reflexivity.
Qed.

Lemma insertBy_analysis_sorted (x : FlaggedSubmission)
  (l : list FlaggedSubmission) :
  StronglySorted (fun a b => byAnalysisDescending a b <= 0)%Z l ->
  StronglySorted (fun a b => byAnalysisDescending a b <= 0)%Z
                 (insertBy byAnalysisDescending x l).
Proof.
  induction 1 as [|y l S IH F]; simpl.
  - repeat constructor.
  - destruct (Z.leb_spec (byAnalysisDescending x y) 0) as [L|L].
    + constructor; [now constructor|].
      constructor; [exact L|].
      rewrite Forall_forall in *. intros z Hz. specialize (F z Hz).
      unfold byAnalysisDescending in *. lia.
    + constructor; [exact IH|].
      rewrite Forall_forall in *. intros z Hz.
      apply (Permutation_in _ (insertBy_perm byAnalysisDescending x l)) in Hz.
      destruct Hz as [<-|Hz]; [|now apply F].
      unfold byAnalysisDescending in *. lia.
Qed.

Lemma sortBy_analysis_sorted (l : list FlaggedSubmission) :
  StronglySorted (fun a b => byAnalysisDescending a b <= 0)%Z
                 (sortBy byAnalysisDescending l).
Proof.
  induction l as [|x l IH]; simpl; [constructor|].
  now apply insertBy_analysis_sorted.
Qed.

Lemma flaggedEntries_asStored (results : list StoredResult) :
  map asStored (flaggedEntries results) = filter storedSuspicious results.
Proof.
  unfold flaggedEntries, storedSuspicious.
  induction results as [|r l IH]; [reflexivity|].
  cbn [flat_map filter]. rewrite map_app, IH.
  destruct r as [i n sc p c t [a|]]; cbn [plagiarismAnalysis];
    [|reflexivity].
  destruct (isSuspicious a); reflexivity.
Qed.

(** X20: the plagiarism report lists exactly the stored results whose
    analysis is present and marked suspicious, each once and with the
    participantId, participantName, score, percentage, completionTime,
    timestamp and analysis of the stored result, ordered by descending
    suspicionScore; flaggedSubmissions is their number, which is at most
    totalSubmissions, the number of stored results. *)
Theorem plagiarismReport_spec (results : list StoredResult) :
  let report := plagiarismReport results in
  Permutation (map asStored (reportSubmissions report))
              (filter storedSuspicious results)
  /\ StronglySorted
       (fun a b => (suspicionScore (flaggedAnalysis b)
                    <= suspicionScore (flaggedAnalysis a))%Z)
       (reportSubmissions report)
  /\ Forall (fun e => isSuspicious (flaggedAnalysis e) = true)
            (reportSubmissions report)
  /\ reportFlaggedSubmissions report
     = List.length (filter storedSuspicious results)
  /\ reportFlaggedSubmissions report <= reportTotalSubmissions report
  /\ reportTotalSubmissions report = List.length results.
Proof.
  cbv zeta. unfold plagiarismReport.
  cbn [reportSubmissions reportFlaggedSubmissions reportTotalSubmissions].
  pose proof (sortBy_perm byAnalysisDescending (flaggedEntries results)) as P.
  split; [rewrite <- flaggedEntries_asStored; now apply Permutation_map|].
  split; [|split; [|split; [|split]]].
  - pose proof (sortBy_analysis_sorted (flaggedEntries results)) as S.
    clear P. induction S as [|x l S IH F]; constructor; [exact IH|].
    rewrite Forall_forall in *. intros z Hz. specialize (F z Hz).
    unfold byAnalysisDescending in F. lia.
  - apply Forall_forall. intros e He.
    apply (flaggedEntries_suspicious results).
    now apply (Permutation_in _ P).
  - rewrite (Permutation_length P). apply flaggedEntries_length.
  - rewrite (Permutation_length P), flaggedEntries_length.
    apply filter_length_le.
  - reflexivity.
Qed.

End ReportEndpoints.

(** ** Words, bounds and reports *)

Section WordsAndBounds.

Local Open Scope Q_scope.

Context {Question : Type}.

(** X21: two texts with the same set of lower-cased words have Jaccard
    similarity 1, whatever the order and the repetition of the words. *)
Theorem jaccardSimilarity_same_words (a b : string) :
  (forall w : string,
      In w (JsString.splitWhitespace (JsString.toLowerCase a))
      <-> In w (JsString.splitWhitespace (JsString.toLowerCase b))) ->
  jaccardSimilarity a b == 1.
Proof.
  intro H. unfold jaccardSimilarity.
  set (set1 := JsSet.ofList
                 (JsString.splitWhitespace (JsString.toLowerCase a))).
  set (set2 := JsSet.ofList
                 (JsString.splitWhitespace (JsString.toLowerCase b))).
  cbv zeta.
  assert (E : forall w, In w set1 <-> In w set2).
  { intro w. unfold set1, set2. rewrite !ofList_In. apply H. }
  assert (P : (0 < JsSet.size set1)%nat)
    by (apply ofList_nonempty, splitLoop_nonempty).
  assert (I : JsSet.size (JsSet.ofList (filter (JsSet.has set2) set1))
              = JsSet.size set1).
  { apply same_elements_size; try apply ofList_NoDup.
    intro w. rewrite ofList_In, filter_In, has_In, <- E. tauto. }
  assert (U : JsSet.size (JsSet.ofList (set1 ++ set2)) = JsSet.size set1).
  { apply same_elements_size; try apply ofList_NoDup.
    intro w. rewrite ofList_In, in_app_iff, <- E. tauto. }
  rewrite I, U.
  destruct (Nat.eqb_spec (JsSet.size set1) 0); [lia|].
  apply Qdiv_self, ofNat_pos, P.
Qed.

(** X22: the pairwise similarity of two answer sequences lies between 0
    and 1, and it is 0 when either sequence is absent or the lengths
    differ. *)
Theorem calculateAnswerSimilarity_range
  (answers1 answers2 : option (list Answer)) :
  (0 <= calculateAnswerSimilarity answers1 answers2
   /\ calculateAnswerSimilarity answers1 answers2 <= 1)
  /\ (List.length (answersOr answers1) <> List.length (answersOr answers2)
      \/ answers1 = None \/ answers2 = None ->
      calculateAnswerSimilarity answers1 answers2 = 0).
Proof.
  split; [apply calculateAnswerSimilarity_bounds|].
  intros [H|[->| ->]].
  - destruct answers1 as [l1|], answers2 as [l2|]; try reflexivity;
      try apply calculateAnswerSimilarity_absent_r.
    now apply calculateAnswerSimilarity_mismatch.
  - reflexivity.
  - apply calculateAnswerSimilarity_absent_r.
Qed.

(** X23: the batch report holds exactly one report per submission: the
    participantIds of its reports are those of the collection, rearranged. *)
Theorem generateBatchReport_one_report_each (allSubmissions : list Submission)
  (questions : list Question) :
  Permutation
    (map resultId (reports (generateBatchReport allSubmissions questions)))
    (map participantId allSubmissions).
Proof.
  unfold generateBatchReport. cbn [reports].
  rewrite (Permutation_map resultId
             (sortBy_perm byScoreDescending
                (map (fun submission =>
                        analyzeSubmission submission allSubmissions questions)
                     allSubmissions))).
  rewrite map_map.
  erewrite map_ext; [reflexivity|].
  intro s. unfold analyzeSubmission.
  destruct (typingData s); reflexivity.
Qed.

End WordsAndBounds.

(** ** Uniform typing speed *)

Section UniformTyping.

Local Open Scope Q_scope.

(** X24: telemetry whose typing speeds all equal one whole number of WPM
    above 100 (a number whose sums the code forms exactly) is flagged for
    suspiciously consistent typing (score at least 35); above 500 WPM it is
    flagged for unrealistically fast typing as well (score at least 75). *)
Theorem uniform_typing_speed_flagged (typingData : TypingData)
  (speeds : list Q) (k : Z) :
  questionTypingSpeeds typingData = Some speeds ->
  speeds <> [] ->
  Forall (fun x => x == inject_Z k) speeds ->
  (100 < k)%Z ->
  exactSum k (List.length speeds) ->
  In SuspiciouslyConsistentTyping (fst (analyzeTypingPattern typingData))
  /\ 35 <= snd (analyzeTypingPattern typingData)
  /\ ((500 < k)%Z ->
      In UnrealisticallyFastTyping (fst (analyzeTypingPattern typingData))
      /\ 75 <= snd (analyzeTypingPattern typingData)).
Proof.
  intros S N F Ck _.
  set (c := inject_Z k) in *.
  assert (C : 100 < c) by (unfold c; change 100 with (inject_Z 100);
                           now rewrite <- Zlt_Qlt).
  assert (C500 : (500 < k)%Z -> 500 < c)
    by (intro H; unfold c; change 500 with (inject_Z 500);
        now rewrite <- Zlt_Qlt).
  clearbody c.
  pose proof (average_constant c speeds N F) as A.
  pose proof (calculateVariance_constant c speeds F) as V.
  assert (P : (0 < List.length speeds)%nat)
    by (destruct speeds; [congruence|simpl; lia]).
  set (fast := Qlt_bool typingSpeedMax
                        (sum speeds / ofNat (List.length speeds))).
  assert (E : checkTypingSpeed typingData ([], 0)
              = flagIf true SuspiciouslyConsistentTyping 35
                  (flagIf fast UnrealisticallyFastTyping 40 ([], 0))).
  { unfold checkTypingSpeed. rewrite S.
    destruct (Nat.ltb_spec 0 (List.length speeds)) as [_|]; [|lia].
    cbv zeta.
    replace (Qlt_bool (sum speeds / ofNat (List.length speeds))
                      typingSpeedMin) with false.
    2:{ symmetry. apply not_true_is_false. intro H.
        apply Qlt_bool_iff in H. rewrite A in H.
        unfold typingSpeedMin in H. lra. }
    replace (sqrtLt (calculateVariance speeds)
               (sum speeds / ofNat (List.length speeds) * (1 # 10))
             && Qlt_bool 100 (sum speeds / ofNat (List.length speeds)))
      with true; [reflexivity|].
    symmetry. unfold sqrtLt. rewrite !andb_true_iff, !Qlt_bool_iff.
    rewrite V, A. repeat split; try lra.
    apply Qmult_lt_0_compat; lra. }
  pose proof (grows_trans _ _ _
                (checkPausePatterns_grows typingData
                   (checkTypingSpeed typingData ([], 0)))
                (checkAnswerChanges_grows typingData _)) as [G I].
  unfold analyzeTypingPattern. rewrite E in *.
  split; [|split].
  - cbn [finish fst]. apply I. cbn [flagIf fst]. apply in_or_app.
    right. now left.
  - apply finish_lower; [discriminate|].
    eapply Qle_trans; [|exact G].
    clear. destruct fast; cbn [flagIf fst snd]; lra.
  - intro C5. apply C500 in C5.
    assert (T : fast = true).
    { apply Qlt_bool_iff. rewrite A. unfold typingSpeedMax. exact C5. }
    rewrite T in G, I |- *. split.
    + cbn [finish fst]. apply I. cbn [flagIf fst].
      apply in_or_app. left. now left.
    + apply finish_lower; [discriminate|].
      eapply Qle_trans; [|exact G]. cbn [flagIf fst snd]. lra.
Qed.

End UniformTyping.

(** ** Tokens *)

Section Tokens.

Lemma splitLoop_tokens (inws : bool) (cur l : list ascii) :
  forallb (fun c => negb (JsString.isSpace c)) cur = true ->
  Forall (fun token =>
            forallb (fun c => negb (JsString.isSpace c))
                    (JsString.chars token) = true)
         (JsString.splitLoop inws cur l).
Proof.
  revert inws cur; induction l as [|c l IH]; intros inws cur H; simpl.
  - constructor; [now rewrite chars_ofChars|constructor].
  - destruct (JsString.isSpace c) eqn:E.
    + destruct inws; [now apply IH|].
      constructor; [now rewrite chars_ofChars|now apply IH].
    + apply IH. rewrite forallb_app, H. simpl. now rewrite E.
Qed.

Lemma splitLoop_no_space (cur l : list ascii) :
  forallb (fun c => negb (JsString.isSpace c)) l = true ->
  JsString.splitLoop false cur l = [JsString.ofChars (cur ++ l)].
Proof.
  revert cur; induction l as [|c l IH]; intros cur H; simpl.
  - now rewrite app_nil_r.
  - simpl in H. apply andb_true_iff in H. destruct H as [E H].
    apply negb_true_iff in E. rewrite E, (IH _ H), <- app_assoc.
    reflexivity.
Qed.

(** X25: splitting on white space always yields at least one token, no
    token contains a white-space character, and a string without white
    space is its own single token (the empty string included). *)
Theorem splitWhitespace_tokens (s : string) :
  JsString.splitWhitespace s <> []
  /\ Forall (fun token =>
               forallb (fun c => negb (JsString.isSpace c))
                       (JsString.chars token) = true)
            (JsString.splitWhitespace s)
  /\ (forallb (fun c => negb (JsString.isSpace c)) (JsString.chars s) = true ->
      JsString.splitWhitespace s = [s]).
Proof.
  unfold JsString.splitWhitespace. split; [apply splitLoop_nonempty|].
  split; [now apply splitLoop_tokens|].
  intro H. rewrite (splitLoop_no_space [] _ H). cbn [app].
  now rewrite ofChars_chars.
Qed.

End Tokens.

(** ** Short answers *)

Section ShortAnswers.

Local Open Scope Q_scope.

Lemma shortText_spec (s : string) :
  shortText s = true ->
  truthy (normalizeAnswer (AStr s)) = true
  /\ (20 <? JsString.length (JsString.trim (JsString.toLowerCase s)))%nat
     = false.
Proof.
  unfold shortText. intro H. apply andb_true_iff in H. destruct H as [B L].
  split; [exact B|]. apply Nat.leb_le in L. apply Nat.ltb_ge. exact L.
Qed.

Lemma similarityStep_short (acc : Q * nat) (s1 s2 : string) :
  shortText s1 = true -> shortText s2 = true ->
  similarityStep acc (AStr s1, AStr s2)
  = (fst acc + (if sameText (s1, s2) then 1 else 0), S (snd acc)).
Proof.
  intros H1 H2.
  destruct (shortText_spec s1 H1) as [T1 L1].
  destruct (shortText_spec s2 H2) as [T2 L2].
  unfold similarityStep. cbn [fst snd]. rewrite T1, T2.
  cbn [andb normalizeAnswer positionScore]. rewrite L1, L2. reflexivity.
Qed.

Lemma similarityLoop_short (ss1 ss2 : list string) (acc : Q * nat) :
  Forall (fun s => shortText s = true) ss1 ->
  Forall (fun s => shortText s = true) ss2 ->
  let r := fold_left similarityStep
             (combine (map AStr ss1) (map AStr ss2)) acc in
  fst r == fst acc + ofNat (List.length (filter sameText (combine ss1 ss2)))
  /\ snd r = (snd acc + List.length (combine ss1 ss2))%nat.
Proof.
  revert ss2 acc; induction ss1 as [|s1 ss1 IH]; intros ss2 acc F1 F2;
    cbv zeta.
  - simpl. split; [change (ofNat 0) with 0; lra|lia].
  - destruct ss2 as [|s2 ss2].
    + simpl. split; [change (ofNat 0) with 0; lra|lia].
    + inversion F1 as [|? ? H1 F1']; inversion F2 as [|? ? H2 F2']; subst.
      cbn [map combine fold_left filter].
      rewrite (similarityStep_short acc s1 s2 H1 H2).
      destruct (IH ss2 (fst acc + (if sameText (s1, s2) then 1 else 0),
                        S (snd acc)) F1' F2') as [E1 E2].
      rewrite E1, E2. cbn [fst snd].
      destruct (sameText (s1, s2)); cbn [List.length].
      * split; [rewrite ofNat_S; lra|lia].
      * split; [lra|lia].
Qed.

Lemma filter_map_length {A B : Type} (f : B -> bool) (h : A -> B)
  (l : list A) :
  List.length (filter f (map h l))
  = List.length (filter (fun x => f (h x)) l).
Proof.
  induction l as [|x l IH]; [reflexivity|]. simpl.
  destruct (f (h x)); simpl; now rewrite IH.
Qed.

Lemma count_by_index {A : Type} (g : A -> bool) (d : A) (l : list A)
  (f : nat -> bool) :
  (forall i, (i < List.length l)%nat -> f i = g (nth i l d)) ->
  List.length (filter f (seq 0 (List.length l))) = List.length (filter g l).
Proof.
  revert f; induction l as [|x l IH]; intros f H; [reflexivity|].
  assert (T : List.length (filter f (seq 1 (List.length l)))
              = List.length (filter g l)).
  { rewrite <- seq_shift, filter_map_length.
    apply (IH (fun i => f (S i))).
    intros i Hi. rewrite (H (S i)); [reflexivity|simpl; lia]. }
  cbn [List.length seq filter].
  rewrite (H 0%nat); [|simpl; lia]. cbn [nth].
  destruct (g x); cbn [List.length]; now rewrite T.
Qed.

Lemma getMatchingAnswers_short (ss1 ss2 : list string) :
  Forall (fun s => shortText s = true) ss1 ->
  Forall (fun s => shortText s = true) ss2 ->
  List.length ss1 = List.length ss2 ->
  List.length (getMatchingAnswers (map AStr ss1) (map AStr ss2))
  = List.length (filter sameText (combine ss1 ss2)).
Proof.
  intros F1 F2 L. unfold getMatchingAnswers.
  replace (List.length (map AStr ss1)) with (List.length (combine ss1 ss2))
    by (rewrite length_combine, length_map; lia).
  apply (count_by_index sameText (EmptyString, EmptyString)).
  intros i Hi. rewrite length_combine in Hi.
  rewrite (combine_nth _ _ _ _ _ L). unfold at_.
  assert (N1 : nth i (map AStr ss1) ANull = AStr (nth i ss1 EmptyString)).
  { rewrite (nth_indep _ ANull (AStr EmptyString));
      [apply map_nth|rewrite length_map; lia]. }
  assert (N2 : nth i (map AStr ss2) ANull = AStr (nth i ss2 EmptyString)).
  { rewrite (nth_indep _ ANull (AStr EmptyString));
      [apply map_nth|rewrite length_map; lia]. }
  cbv zeta. rewrite N1, N2.
  rewrite Forall_forall in F1, F2.
  destruct (shortText_spec (nth i ss1 EmptyString)) as [T1 _];
    [apply F1, nth_In; lia|].
  destruct (shortText_spec (nth i ss2 EmptyString)) as [T2 _];
    [apply F2, nth_In; lia|].
  rewrite T1, T2. reflexivity.
Qed.

(** X26: for two equally long, non-empty sequences of string answers that
    are not blank and have at most 20 characters once normalized, the
    pairwise similarity is the number of reported matching positions
    divided by the number of answers. *)
Theorem short_answers_similarity (ss1 ss2 : list string) :
  Forall (fun s => shortText s = true) ss1 ->
  Forall (fun s => shortText s = true) ss2 ->
  List.length ss1 = List.length ss2 ->
  ss1 <> [] ->
  calculateAnswerSimilarity (Some (map AStr ss1)) (Some (map AStr ss2))
  == ofNat (List.length (getMatchingAnswers (map AStr ss1) (map AStr ss2)))
     / ofNat (List.length ss1).
Proof.
  intros F1 F2 L N. rewrite (getMatchingAnswers_short ss1 ss2 F1 F2 L).
  unfold calculateAnswerSimilarity. rewrite !length_map, L, Nat.eqb_refl.
  cbn [negb].
  destruct (similarityLoop_short ss1 ss2 (0, 0%nat) F1 F2) as [E1 E2].
  destruct (fold_left similarityStep
              (combine (map AStr ss1) (map AStr ss2)) (0, 0%nat)) as [t n].
  cbn [fst snd] in E1, E2.
  assert (C : n = List.length ss2)
    by (rewrite E2, length_combine; simpl; lia).
  assert (P : (0 < n)%nat)
    by (rewrite C, <- L; destruct ss1; [congruence|simpl; lia]).
  destruct (Nat.ltb_spec 0 n); [|lia].
  rewrite E1, C. apply Qdiv_comp; [lra|reflexivity].
Qed.

End ShortAnswers.

(** ** Instances of the conditional properties *)

Section MoreWitnesses.

Local Open Scope Q_scope.
Import Examples MoreExamples.

(** Two participants with the same answers list each other. *)
Lemma suspicion_is_mutual_witness :
  In (matchOf parisA parisB)
     (fst (detectAnswerSimilarity parisA [parisA; parisB]))
  /\ In (matchOf parisB parisA)
        (fst (detectAnswerSimilarity parisB [parisA; parisB])).
Proof.
  destruct (suspicion_is_mutual parisA parisB [parisA; parisB]
              [parisA; parisB]) as [A [B _]].
  - simpl. auto.
  - simpl. auto.
  - reflexivity.
  - split; [exact A|exact B].
Defined.

(** A submission without answers has no suspicious match. *)
Lemma detectAnswerSimilarity_without_answers_witness :
  detectAnswerSimilarity untimed [parisA; parisB] = ([], 0).
Proof.
  apply detectAnswerSimilarity_without_answers. left. reflexivity.
Defined.

(** Six questions of four seconds each. *)
Lemma identical_question_times_flagged_witness :
  In UnnaturallyConsistentTiming
     (fst (detectTimeAnomalies steady [] (repeat tt 6)))
  /\ 25 <= snd (detectTimeAnomalies steady [] (repeat tt 6)).
Proof.
  apply (identical_question_times_flagged steady [] (repeat tt 6)
           [4; 4; 4; 4; 4; 4] 4%Z).
  - reflexivity.
  - simpl. lia.
  - repeat constructor.
  - reflexivity.
  - reflexivity.
Defined.

(** A hasty copy of the answers of another participant is suspicious. *)
Lemma isSuspicious_requires_witness :
  isSuspicious (analyzeSubmission hasty [parisB] oneQuestion) = true
  /\ fst (detectAnswerSimilarity hasty [parisB]) <> [].
Proof.
  split; [reflexivity|].
  apply (isSuspicious_requires hasty [parisB] oneQuestion). reflexivity.
Defined.

Lemma getSeverity_monotone_witness :
  (severityRank (getSeverity 50) <= severityRank (getSeverity 90))%nat.
Proof. apply getSeverity_monotone. discriminate. Defined.

(** The same two words in a different order. *)
Lemma jaccardSimilarity_same_words_witness :
  jaccardSimilarity "a b" "b  A" == 1.
Proof.
  apply jaccardSimilarity_same_words. intro w. vm_compute. tauto.
Defined.

Lemma uniform_typing_speed_flagged_witness :
  In SuspiciouslyConsistentTyping (fst (analyzeTypingPattern racing))
  /\ 35 <= snd (analyzeTypingPattern racing).
Proof.
  destruct (uniform_typing_speed_flagged racing [600; 600] 600%Z)
    as [A [B _]].
  - reflexivity.
  - discriminate.
  - repeat constructor.
  - reflexivity.
  - reflexivity.
  - split; [exact A|exact B].
Defined.

(** One answer out of two agrees. *)
Lemma short_answers_similarity_witness :
  calculateAnswerSimilarity (Some (map AStr ["paris"; "4"]%string))
                            (Some (map AStr ["Paris "; "5"]%string))
  == ofNat (List.length
              (getMatchingAnswers (map AStr ["paris"; "4"]%string)
                                  (map AStr ["Paris "; "5"]%string)))
     / ofNat 2.
Proof.
  apply (short_answers_similarity ["paris"; "4"]%string
                                  ["Paris "; "5"]%string).
  - repeat constructor.
  - repeat constructor.
  - reflexivity.
  - discriminate.
Defined.

End MoreWitnesses.
